(** * manage_backups.py: retention and scheduling of Minecraft server backups

    A shallow embedding of [manage-backups/manage_backups.py].  The script is
    effectful throughout (wall clock, filesystem, sub-processes, logging), so
    its functions are embedded as computations in a state-and-exception monad
    over an explicit [World]; every effect leaves an [event] in the world's
    trace, in program order.

    Modelling conventions
    - a naive [datetime.datetime] is the number of microseconds since
      0001-01-01T00:00:00 ([datetime.min]); a [datetime.timedelta] is a signed
      number of microseconds.  Both are [Z]; the range check that Python
      performs on [datetime - timedelta] is written out;
    - [st_mtime] is kept in the filesystem already converted by
      [datetime.fromtimestamp] (the float-to-local-time conversion itself is
      not modelled);
    - a [pathlib.Path] is the list of its components below [/];
    - the filesystem holds regular files and directories (no symbolic links,
      no ownership); a directory may be unreadable, which is what makes
      [os.scandir] fail inside [glob]. *)

From Stdlib Require Import ZArith Ascii String.
From stdpp Require Import gmap strings list fin_maps.

Local Open Scope Z_scope.

(** ** datetime and timedelta *)

Module Datetime.

Definition US_PER_SECOND : Z := 1000000.
Definition US_PER_MINUTE : Z := 60 * US_PER_SECOND.
Definition US_PER_HOUR : Z := 60 * US_PER_MINUTE.
Definition US_PER_DAY : Z := 24 * US_PER_HOUR.
Definition US_PER_WEEK : Z := 7 * US_PER_DAY.

(** [datetime.timedelta(weeks=.., days=.., hours=.., minutes=.., seconds=..)]:
    every keyword is converted to microseconds and the parts are summed. *)
Definition timedelta (weeks days hours minutes seconds : Z) : Z :=
  weeks * US_PER_WEEK + days * US_PER_DAY + hours * US_PER_HOUR
  + minutes * US_PER_MINUTE + seconds * US_PER_SECOND.

(** [date.max.toordinal()] is 3652059: the days from 0001-01-01 to
    9999-12-31, both included. *)
Definition MAXORDINAL : Z := 3652059.
Definition DATETIME_MIN : Z := 0.
Definition DATETIME_MAX : Z := MAXORDINAL * US_PER_DAY - 1.

Definition in_range (dt : Z) : bool :=
  (DATETIME_MIN <=? dt) && (dt <=? DATETIME_MAX).

(** [dt - delta]; [None] stands for Python's
    [OverflowError: date value out of range]. *)
Definition sub_timedelta (dt delta : Z) : option Z :=
  let r := dt - delta in
  if in_range r then Some r else None.

(** *** Calendar fields, as computed by [datetime._ord2ymd] *)

Definition DI400Y : Z := 146097.
Definition DI100Y : Z := 36524.
Definition DI4Y : Z := 1461.

Definition DAYS_IN_MONTH (month : Z) : Z :=
  match month with
  | 1 => 31 | 2 => 28 | 3 => 31 | 4 => 30 | 5 => 31 | 6 => 30
  | 7 => 31 | 8 => 31 | 9 => 30 | 10 => 31 | 11 => 30 | 12 => 31
  | _ => 0
  end.

Definition DAYS_BEFORE_MONTH (month : Z) : Z :=
  match month with
  | 1 => 0 | 2 => 31 | 3 => 59 | 4 => 90 | 5 => 120 | 6 => 151
  | 7 => 181 | 8 => 212 | 9 => 243 | 10 => 273 | 11 => 304 | 12 => 334
  | _ => 0
  end.

Definition b2z (b : bool) : Z := if b then 1 else 0.

Definition is_leap (year : Z) : bool :=
  (year mod 4 =? 0) && (negb (year mod 100 =? 0) || (year mod 400 =? 0)).

Definition days_before_year (year : Z) : Z :=
  let y := year - 1 in y * 365 + y / 4 - y / 100 + y / 400.

(** [_ymd2ord]: the ordinal of a calendar date, 0001-01-01 being day 1. *)
Definition ymd2ord (year month day : Z) : Z :=
  days_before_year year + DAYS_BEFORE_MONTH month
  + b2z ((2 <? month) && is_leap year) + day.

(** [_ord2ymd]: the calendar date of an ordinal. *)
Definition ord2ymd (ordinal : Z) : Z * Z * Z :=
  let n := ordinal - 1 in
  let n400 := n / DI400Y in
  let n := n mod DI400Y in
  let year := n400 * 400 + 1 in
  let n100 := n / DI100Y in
  let n := n mod DI100Y in
  let n4 := n / DI4Y in
  let n := n mod DI4Y in
  let n1 := n / 365 in
  let n := n mod 365 in
  let year := year + n100 * 100 + n4 * 4 + n1 in
  if (n1 =? 4) || (n100 =? 4) then (year - 1, 12, 31)
  else
    let leapyear := (n1 =? 3) && (negb (n4 =? 24) || (n100 =? 3)) in
    let month := Z.shiftr (n + 50) 5 in
    let preceding := DAYS_BEFORE_MONTH month + b2z ((2 <? month) && leapyear) in
    if n <? preceding then
      let month := month - 1 in
      let preceding :=
        preceding - (DAYS_IN_MONTH month + b2z ((month =? 2) && leapyear)) in
      (year, month, n - preceding + 1)
    else (year, month, n - preceding + 1).

(** [datetime(year, month, day, hour, minute, second)] as a point in time. *)
Definition datetime (year month day hour minute second : Z) : Z :=
  (ymd2ord year month day - 1) * US_PER_DAY
  + hour * US_PER_HOUR + minute * US_PER_MINUTE + second * US_PER_SECOND.

Definition year_of (dt : Z) : Z := fst (fst (ord2ymd (dt / US_PER_DAY + 1))).
Definition month_of (dt : Z) : Z := snd (fst (ord2ymd (dt / US_PER_DAY + 1))).
Definition day_of (dt : Z) : Z := snd (ord2ymd (dt / US_PER_DAY + 1)).
Definition hour_of (dt : Z) : Z := (dt mod US_PER_DAY) / US_PER_HOUR.
Definition minute_of (dt : Z) : Z := (dt mod US_PER_HOUR) / US_PER_MINUTE.
Definition second_of (dt : Z) : Z := (dt mod US_PER_MINUTE) / US_PER_SECOND.

(** *** strftime, for the directives the script uses *)

Definition digit (n : Z) : ascii :=
  ascii_of_nat (48 + Z.to_nat (n mod 10)).

(** The decimal digits of [n], zero-padded on the left to [width]. *)
Fixpoint zero_padded (width : nat) (n : Z) : string :=
  match width with
  | O => EmptyString
  | S w => zero_padded w (n / 10) +:+ String (digit n) EmptyString
  end.

Definition directive (c : ascii) (dt : Z) : option string :=
  if Ascii.eqb c "Y" then Some (zero_padded 4 (year_of dt))
  else if Ascii.eqb c "m" then Some (zero_padded 2 (month_of dt))
  else if Ascii.eqb c "d" then Some (zero_padded 2 (day_of dt))
  else if Ascii.eqb c "H" then Some (zero_padded 2 (hour_of dt))
  else if Ascii.eqb c "M" then Some (zero_padded 2 (minute_of dt))
  else if Ascii.eqb c "S" then Some (zero_padded 2 (second_of dt))
  else None.

(** [dt.strftime(fmt)]: literal characters are copied, [%Y %m %d %H %M %S]
    are expanded; any other directive is copied unchanged.  The year is
    written with four digits, which is what every platform does from the
    year 1000 on. *)
Fixpoint strftime (fmt : string) (dt : Z) : string :=
  match fmt with
  | EmptyString => EmptyString
  | String c rest =>
      if Ascii.eqb c "%" then
        match rest with
        | String d rest' =>
            match directive d dt with
            | Some s => s +:+ strftime rest' dt
            | None => String c (String d (strftime rest' dt))
            end
        | EmptyString => String c EmptyString
        end
      else String c (strftime rest dt)
  end.

End Datetime.

(** ** Paths and the filesystem *)

(** A [pathlib.Path], as its components below the root directory. *)
Definition Path : Type := list string.

(** [str(path)] of an absolute path. *)
Definition path_str (p : Path) : string :=
  fold_right (fun c acc => "/" +:+ c +:+ acc) "" p.

Inductive inode : Type :=
| File (mtime : Z)
| Dir (mtime : Z) (readable : bool).

Definition inode_mtime (i : inode) : Z :=
  match i with
  | File m => m
  | Dir m _ => m
  end.

(** The filesystem: which inode each absolute path names. *)
Abbreviation FS := (gmap Path inode).

(** ** glob.glob("**/*.tar.gz", root_dir=..., recursive=True)

    [glob] walks the tree below [root_dir]: [_rlistdir] lists a directory with
    [os.scandir], skips the names that start with a dot and descends into every
    directory it listed; [_glob1] then keeps, in each directory reached, the
    names that do not start with a dot and that [fnmatch] accepts.  A directory
    that cannot be listed (it is missing, it is not a directory, it is
    unreadable) contributes nothing: [_iterdir] swallows the [OSError]. *)

Module Glob.

(** [_ishidden]: the name starts with a dot. *)
Definition ishidden (name : string) : bool :=
  match name with
  | String c _ => Ascii.eqb c "."
  | EmptyString => false
  end.

Fixpoint ends_with (suffix s : string) : bool :=
  String.eqb s suffix
  || match s with
     | String _ s' => ends_with suffix s'
     | EmptyString => false
     end.

(** [fnmatch] against [*.tar.gz]: any characters, then the literal suffix. *)
Definition fnmatch_tar_gz (name : string) : bool := ends_with ".tar.gz" name.

(** [os.scandir] succeeds on [d]. *)
Definition listable (fs : FS) (d : Path) : bool :=
  match fs !! d with
  | Some (Dir _ true) => true
  | _ => false
  end.

(** The walk from [dir] reaches the relative name [rel]: every directory on
    the way down, [dir] included, could be listed and no component is
    hidden. *)
Fixpoint reaches (fs : FS) (dir : Path) (rel : Path) : bool :=
  match rel with
  | [] => true
  | name :: rel' =>
      listable fs dir && negb (ishidden name) && reaches fs (dir ++ [name]) rel'
  end.

Definition matches (fs : FS) (root rel : Path) : bool :=
  match last rel with
  | Some name => fnmatch_tar_gz name && reaches fs root rel
  | None => false
  end.

(** [p] relative to [root], when [p] is below [root]. *)
Fixpoint relative_to (root p : Path) : option Path :=
  match root, p with
  | [], _ => Some p
  | r :: root', c :: p' => if String.eqb r c then relative_to root' p' else None
  | _ :: _, [] => None
  end.

(** The relative names returned, in the order the filesystem enumerates
    them (an order the callers must not rely on). *)
Definition glob (fs : FS) (root : Path) : list Path :=
  omap (fun entry : Path * inode =>
          match relative_to root (fst entry) with
          | Some rel => if matches fs root rel then Some rel else None
          | None => None
          end)
       (map_to_list fs).

End Glob.

(** ** The world the script runs in *)

Inductive level : Type := INFO | WARNING.

(** The arguments interpolated into a log record. *)
Inductive logarg : Type :=
| ArgPath (p : Path)
| ArgDatetime (dt : Z)
| ArgTimedelta (delta : Z).

(** What the script does to its environment, in program order. *)
Inductive event : Type :=
| EvNow (t : Z)                                          (* datetime.datetime.now() *)
| EvGlob (root : Path)                                   (* glob.glob(..., root_dir=root) *)
| EvStat (p : Path)                                      (* p.stat() *)
| EvUnlink (p : Path)                                    (* p.unlink() *)
| EvRun (argv : list string)                             (* subprocess.run(argv, check=True) *)
| EvLog (lvl : level) (fmt : string) (args : list logarg). (* logging.<lvl>(fmt, *args) *)

(** How a sub-process ends: with an exit status, or not at all because the
    executable could not be started. *)
Inductive outcome : Type :=
| Exited (returncode : Z)
| NotStarted.

(** The exceptions that can reach the script. *)
Inductive exn : Type :=
| OverflowError
| FileNotFoundError
| IsADirectoryError (p : Path)
| CalledProcessError (returncode : Z) (cmd : list string).

Inductive result (A : Type) : Type :=
| Ok (a : A)
| Raise (e : exn).
Arguments Ok {A} a.
Arguments Raise {A} e.

(** The state of the machine, together with what the environment will answer:
    [clock n] is what the [n]-th reading of the wall clock returns, and
    [spawn argv history fs] is how the command [argv] ends and what it leaves
    on disk when it is started after [history] on the filesystem [fs]. *)
Record World : Type := {
  fs : FS;
  clock : nat -> Z;
  ticks : nat;
  spawn : list string -> list event -> FS -> outcome * FS;
  trace : list event;
}.

Definition set_fs (f : FS) (w : World) : World :=
  {| fs := f; clock := clock w; ticks := ticks w; spawn := spawn w; trace := trace w |}.

Definition tick (w : World) : World :=
  {| fs := fs w; clock := clock w; ticks := S (ticks w); spawn := spawn w; trace := trace w |}.

Definition emit (e : event) (w : World) : World :=
  {| fs := fs w; clock := clock w; ticks := ticks w; spawn := spawn w;
     trace := trace w ++ [e] |}.

(** ** Computations: state passing with exceptions *)

Definition M (A : Type) : Type := World -> result A * World.

Definition ret {A} (a : A) : M A := fun w => (Ok a, w).

Definition raise {A} (e : exn) : M A := fun w => (Raise e, w).

Definition bind {A B} (m : M A) (k : A -> M B) : M B :=
  fun w =>
    match m w with
    | (Ok a, w') => k a w'
    | (Raise e, w') => (Raise e, w')
    end.

Declare Scope py_scope.
Delimit Scope py_scope with py.
Notation "x <- m ;; k" := (bind m (fun x => k))
  (at level 100, m at next level, k at level 200, right associativity) : py_scope.
Notation "m ;; k" := (bind m (fun _ => k))
  (at level 100, k at level 200, right associativity) : py_scope.
Local Open Scope py_scope.

(** [all(f(x) for x in xs)]: stops at the first falsy element. *)
Fixpoint py_all {A} (f : A -> M bool) (xs : list A) : M bool :=
  match xs with
  | [] => ret true
  | x :: xs' => b <- f x ;; if b then py_all f xs' else ret false
  end.

(** [for x in xs: body(x)]. *)
Fixpoint py_for {A} (xs : list A) (body : A -> M unit) : M unit :=
  match xs with
  | [] => ret tt
  | x :: xs' => body x ;; py_for xs' body
  end.

(** *** Primitive effects *)

(** [datetime.datetime.now()]. *)
Definition datetime_now : M Z :=
  fun w => let t := clock w (ticks w) in (Ok t, emit (EvNow t) (tick w)).

(** [dt - delta] on a datetime. *)
Definition datetime_sub (dt delta : Z) : M Z :=
  match Datetime.sub_timedelta dt delta with
  | Some r => ret r
  | None => raise OverflowError
  end.

(** [datetime.datetime.fromtimestamp(p.stat().st_mtime)]. *)
Definition stat_mtime (p : Path) : M Z :=
  fun w =>
    let w' := emit (EvStat p) w in
    match fs w !! p with
    | Some i => (Ok (inode_mtime i), w')
    | None => (Raise FileNotFoundError, w')
    end.

(** [p.unlink()].  The timestamps of the directory that held [p] are left as
    they are; the system renews them. *)
Definition unlink (p : Path) : M unit :=
  fun w =>
    let w' := emit (EvUnlink p) w in
    match fs w !! p with
    | Some (File _) => (Ok tt, set_fs (delete p (fs w)) w')
    | Some (Dir _ _) => (Raise (IsADirectoryError p), w')
    | None => (Raise FileNotFoundError, w')
    end.

(** [glob.glob("**/*.tar.gz", root_dir=root, recursive=True)]. *)
Definition glob_tar_gz (root : Path) : M (list Path) :=
  fun w => (Ok (Glob.glob (fs w) root), emit (EvGlob root) w).

(** [subprocess.run(argv, check=True)]. *)
Definition subprocess_run (argv : list string) : M unit :=
  fun w =>
    let w' := emit (EvRun argv) w in
    match spawn w argv (trace w) (fs w) with
    | (NotStarted, _) => (Raise FileNotFoundError, w')
    | (Exited returncode, fs') =>
        if returncode =? 0 then (Ok tt, set_fs fs' w')
        else (Raise (CalledProcessError returncode argv), set_fs fs' w')
    end.

(** [logging.info(fmt, *args)]. *)
Definition logging_info (fmt : string) (args : list logarg) : M unit :=
  fun w => (Ok tt, emit (EvLog INFO fmt args) w).

(** ** manage_backups.py *)

(** Where to find backup files. *)
Definition BACKUPS_DIR : Path := ["srv"; "minecraft"; "backups"].
Definition BACKUPS_DAILY : Path := BACKUPS_DIR ++ ["daily"].
Definition BACKUPS_WEEKLY : Path := BACKUPS_DIR ++ ["weekly"].
Definition BACKUPS_MONTHLY : Path := BACKUPS_DIR ++ ["monthly"].

(** An archive that exists on the filesystem. *)
Record BackupFile : Type := { path : Path }.

(** Get the last-modified time of this archive. *)
Definition get_mtime (self : BackupFile) : M Z :=
  stat_mtime (path self).

(** Return whether this archive is older than some datetime. *)
Definition is_older_than_dt (self : BackupFile) (dt : Z) : M bool :=
  mtime <- get_mtime self ;;
  ret (mtime <? dt).

(** Return whether this archive is older than some timedelta; the argument
    [now - abs(delta)] is evaluated before the call. *)
Definition is_older_than_delta (self : BackupFile) (delta : Z) : M bool :=
  now <- datetime_now ;;
  dt <- datetime_sub now (Z.abs delta) ;;
  is_older_than_dt self dt.

(** Return the backup files in root_dir. *)
Definition get_backup_files (root_dir : Path) : M (list BackupFile) :=
  backup_names <- glob_tar_gz root_dir ;;
  let backup_paths := (fun filename => root_dir ++ filename) <$> backup_names in
  ret ((fun path => {| path := path |}) <$> backup_paths).

(** Return whether ~1 day has passed since the last daily backup. *)
Definition needs_daily_backup : M bool :=
  daily_backups <- get_backup_files BACKUPS_DAILY ;;
  let max_age := Datetime.timedelta 0 1 0 (-30) 0 in
  py_all (fun backup => is_older_than_delta backup max_age) daily_backups.

(** Return whether ~1 week has passed since the last weekly backup. *)
Definition needs_weekly_backup : M bool :=
  weekly_backups <- get_backup_files BACKUPS_WEEKLY ;;
  let max_age := Datetime.timedelta 1 0 0 (-30) 0 in
  py_all (fun backup => is_older_than_delta backup max_age) weekly_backups.

(** Return whether ~30 days have passed since the last monthly backup. *)
Definition needs_monthly_backup : M bool :=
  monthly_backups <- get_backup_files BACKUPS_MONTHLY ;;
  let max_age := Datetime.timedelta 0 30 0 (-30) 0 in
  py_all (fun backup => is_older_than_delta backup max_age) monthly_backups.

(** Return the name for a new backup file. *)
Definition get_new_backup_filename : M string :=
  now <- datetime_now ;;
  ret (Datetime.strftime "backup-%Y%m%d-%H%M%S.tar.gz" now).

Definition STOP_COMMAND : list string :=
  ["sudo"; "/usr/bin/systemctl"; "stop"; "minecraft-server.service"].

Definition START_COMMAND : list string :=
  ["sudo"; "/usr/bin/systemctl"; "start"; "minecraft-server.service"].

Definition tar_command (backup_path : Path) : list string :=
  ["tar"; "-czhf"; path_str backup_path; "/srv/minecraft/current"].

(** Gracefully stop the Minecraft server. *)
Definition stop_minecraft_server : M unit :=
  logging_info "Stopping the Minecraft server." [] ;;
  subprocess_run STOP_COMMAND.

(** Start the Minecraft server back up. *)
Definition start_minecraft_server : M unit :=
  logging_info "Starting the Minecraft server." [] ;;
  subprocess_run START_COMMAND.

(** Create a new backup file in parent_dir. *)
Definition create_backup (parent_dir : Path) : M BackupFile :=
  stop_minecraft_server ;;
  filename <- get_new_backup_filename ;;
  let backup_path := parent_dir ++ [filename] in
  logging_info "Creating backup file: %s" [ArgPath backup_path] ;;
  subprocess_run (tar_command backup_path) ;;
  start_minecraft_server ;;
  ret {| path := backup_path |}.

(** Create new daily, weekly, and monthly backups as needed. *)
Definition create_new_backups : M unit :=
  daily <- needs_daily_backup ;;
  (if daily then create_backup BACKUPS_DAILY ;; ret tt
   else logging_info "No daily backup needed." []) ;;
  weekly <- needs_weekly_backup ;;
  (if weekly then create_backup BACKUPS_WEEKLY ;; ret tt
   else logging_info "No weekly backup needed." []) ;;
  monthly <- needs_monthly_backup ;;
  (if monthly then create_backup BACKUPS_MONTHLY ;; ret tt
   else logging_info "No monthly backup needed." []).

(** The body of the loop of [delete_backups_older_than_delta].  The arguments
    of the log call are evaluated before the call, [get_mtime()] among them. *)
Definition delete_if_older (delta : Z) (backup_file : BackupFile) : M unit :=
  older <- is_older_than_delta backup_file delta ;;
  if older then
    mtime <- get_mtime backup_file ;;
    logging_info "Deleting old backup %s (mtime %s is older than %s)"
                 [ArgPath (path backup_file); ArgDatetime mtime; ArgTimedelta delta] ;;
    unlink (path backup_file)
  else ret tt.

(** Delete any backups in parent_dir older than delta. *)
Definition delete_backups_older_than_delta (parent_dir : Path) (delta : Z) : M unit :=
  backup_files <- get_backup_files parent_dir ;;
  py_for backup_files (delete_if_older delta).

(** Delete any old daily, weekly, and monthly backups. *)
Definition delete_old_backups : M unit :=
  delete_backups_older_than_delta BACKUPS_DAILY (Datetime.timedelta 0 4 0 0 0) ;;
  delete_backups_older_than_delta BACKUPS_WEEKLY (Datetime.timedelta 3 0 0 0 0) ;;
  delete_backups_older_than_delta BACKUPS_MONTHLY (Datetime.timedelta 0 60 0 0 0).

(** ** The three tiers

    The script repeats itself per tier; the tiers are named here so that a
    statement can range over them. *)

Inductive tier : Type := Daily | Weekly | Monthly.

Definition tier_dir (t : tier) : Path :=
  match t with
  | Daily => BACKUPS_DAILY
  | Weekly => BACKUPS_WEEKLY
  | Monthly => BACKUPS_MONTHLY
  end.

Definition needs_backup (t : tier) : M bool :=
  match t with
  | Daily => needs_daily_backup
  | Weekly => needs_weekly_backup
  | Monthly => needs_monthly_backup
  end.

(** The [delta] that [delete_old_backups] passes for each tier. *)
Definition retention_window (t : tier) : Z :=
  match t with
  | Daily => Datetime.timedelta 0 4 0 0 0
  | Weekly => Datetime.timedelta 3 0 0 0 0
  | Monthly => Datetime.timedelta 0 60 0 0 0
  end.

(** The deletion pass of one tier: its call in [delete_old_backups]. *)
Definition delete_pass (t : tier) : M unit :=
  delete_backups_older_than_delta (tier_dir t) (retention_window t).

(** ** Vocabulary of the statements *)

(** The records the scanner builds for a directory: [root_dir / filename] for
    every name that [glob] returns. *)
Definition records (f : FS) (root_dir : Path) : list BackupFile :=
  (fun path => {| path := path |})
    <$> ((fun filename => root_dir ++ filename) <$> Glob.glob f root_dir).

(** The last-modified time a record has on a filesystem. *)
Definition last_modified_time (f : FS) (r : BackupFile) : option Z :=
  inode_mtime <$> f !! path r.

(** [last_modified_time < now - threshold]. *)
Definition older_than (f : FS) (now threshold : Z) (r : BackupFile) : Prop :=
  exists m, last_modified_time f r = Some m /\ m < now - threshold.

(** The comparison of [is_older_than_dt], read off the filesystem. *)
Definition mtime_before (f : FS) (dt : Z) (r : BackupFile) : bool :=
  match f !! path r with
  | Some i => inode_mtime i <? dt
  | None => false
  end.

(** The thresholds of the "is a backup due" check, as the specification words
    them: the cadence of the tier less thirty minutes. *)
Definition tolerance_adjusted_cadence (t : tier) : Z :=
  match t with
  | Daily => 1 * Datetime.US_PER_DAY - 30 * Datetime.US_PER_MINUTE
  | Weekly => 7 * Datetime.US_PER_DAY - 30 * Datetime.US_PER_MINUTE
  | Monthly => 30 * Datetime.US_PER_DAY - 30 * Datetime.US_PER_MINUTE
  end.

(** The retention windows, as the specification words them: four days, three
    weeks, sixty days. *)
Definition retention_days (t : tier) : Z :=
  match t with
  | Daily => 4
  | Weekly => 3 * 7
  | Monthly => 60
  end.

Definition is_regular_file (f : FS) (r : BackupFile) : Prop :=
  exists m, f !! path r = Some (File m).

(** The wall clock stands still at [now]. *)
Definition frozen_at (now : Z) (w : World) : Prop :=
  forall n, clock w n = now.

(** The command [argv] is run somewhere in [evs]. *)
Fixpoint invoked (argv : list string) (evs : list event) : bool :=
  match evs with
  | [] => false
  | EvRun a :: evs' => bool_decide (a = argv) || invoked argv evs'
  | _ :: evs' => invoked argv evs'
  end.

(** The name of the program each command of [evs] runs. *)
Fixpoint programs (evs : list event) : list string :=
  match evs with
  | [] => []
  | EvRun (prog :: _) :: evs' => prog :: programs evs'
  | _ :: evs' => programs evs'
  end.

(** The number of times the metadata of [p] is read in [evs]. *)
Fixpoint stat_count (p : Path) (evs : list event) : nat :=
  match evs with
  | [] => 0
  | EvStat q :: evs' => (if decide (q = p) then 1 else 0) + stat_count p evs'
  | _ :: evs' => stat_count p evs'
  end%nat.

(** The path [create_backup] archives to when it is run in [w]: the directory
    and a name made of the next reading of the clock. *)
Definition new_backup_path (parent_dir : Path) (w : World) : Path :=
  parent_dir
  ++ [Datetime.strftime "backup-%Y%m%d-%H%M%S.tar.gz" (clock w (ticks w))].

(** A directory that exists and has nothing below it. *)
Definition empty_directory (f : FS) (d : Path) : Prop :=
  (exists m readable, f !! d = Some (Dir m readable))
  /\ forall name rest, f !! (d ++ name :: rest) = None.

(** The events of [evs] that act on the machine: the commands run and the
    files removed. *)
Fixpoint writes (evs : list event) : list event :=
  match evs with
  | [] => []
  | EvRun argv :: evs' => EvRun argv :: writes evs'
  | EvUnlink p :: evs' => EvUnlink p :: writes evs'
  | _ :: evs' => writes evs'
  end.

(** The characters [0] to [9]. *)
Definition is_digit (c : ascii) : bool :=
  (48 <=? nat_of_ascii c)%nat && (nat_of_ascii c <=? 57)%nat.

Fixpoint all_digits (s : string) : bool :=
  match s with
  | EmptyString => true
  | String c s' => is_digit c && all_digits s'
  end.

(** [w'] is [w] some steps later: the same clock and the same commands to
    answer, a trace that has grown. *)
Definition later (w w' : World) : Prop :=
  clock w' = clock w /\ spawn w' = spawn w
  /\ exists evs, trace w' = trace w ++ evs.

(** [w'] is [w] some steps later, and the steps only looked: the same disk, no
    command run, no file removed. *)
Definition only_observed (w w' : World) : Prop :=
  fs w' = fs w /\ clock w' = clock w /\ spawn w' = spawn w
  /\ exists evs, trace w' = trace w ++ evs /\ writes evs = [].

(** [m] keeps the relation [R] between the world it starts in and the world
    it ends in, however it ends. *)
Definition keeps (R : World -> World -> Prop) {A} (m : M A) : Prop :=
  forall w, R w (snd (m w)).

(** From [f] to [f'] nothing changed but regular files that are gone, each
    of them satisfying [P] with the last-modified time it had. *)
Definition removed_only (P : Path -> Z -> Prop) (f f' : FS) : Prop :=
  forall p,
    f' !! p = f !! p
    \/ (f' !! p = None /\ exists m, f !! p = Some (File m) /\ P p m).

(** [p] lies below the directory of a tier, its name ends in [.tar.gz], and
    the time [m] is before [now] less the retention window of that tier. *)
Definition expired_archive (now : Z) (p : Path) (m : Z) : Prop :=
  exists t rel stem,
    p = tier_dir t ++ rel
    /\ last rel = Some (stem +:+ ".tar.gz")
    /\ m < now - retention_days t * Datetime.US_PER_DAY.

(** ** Concrete worlds *)

Module Scenario.

Import Datetime.

(** Noon on 2023-01-01. *)
Definition noon : Z := datetime 2023 1 1 12 0 0.

(** Every command succeeds and leaves the disk as it was. *)
Definition all_succeed (argv : list string) (history : list event) (f : FS)
  : outcome * FS := (Exited 0, f).

(** [tar] exits with status 2; every other command succeeds. *)
Definition tar_fails (argv : list string) (history : list event) (f : FS)
  : outcome * FS :=
  match argv with
  | prog :: _ => if String.eqb prog "tar" then (Exited 2, f) else (Exited 0, f)
  | [] => (Exited 0, f)
  end.

(** [systemctl stop] exits with status 1; every other command succeeds. *)
Definition stop_fails (argv : list string) (history : list event) (f : FS)
  : outcome * FS :=
  if bool_decide (argv = STOP_COMMAND) then (Exited 1, f) else (Exited 0, f).

Definition skeleton : list (Path * inode) :=
  [ (["srv"], Dir 0 true);
    (["srv"; "minecraft"], Dir 0 true);
    (BACKUPS_DIR, Dir 0 true);
    (BACKUPS_DIR ++ ["logs"], Dir 0 true);
    (BACKUPS_DIR ++ ["logs"; "20221231-000000.log"], File (noon - timedelta 0 1 12 0 0));
    (BACKUPS_DAILY, Dir 0 true);
    (BACKUPS_WEEKLY, Dir 0 true) ].

Definition world (entries : list (Path * inode))
    (sp : list string -> list event -> FS -> outcome * FS) : World :=
  {| fs := list_to_map (entries ++ skeleton);
     clock := fun _ => noon;
     ticks := 0;
     spawn := sp;
     trace := [] |}.

(** The tier directories exist and hold no archive; [monthly] is missing. *)
Definition bare : World := world [] all_succeed.

Definition bare_tar_fails : World := world [] tar_fails.

Definition bare_stop_fails : World := world [] stop_fails.

(** One daily archive, 23 hours 40 minutes old. *)
Definition one_recent_daily : World :=
  world [ (BACKUPS_DAILY ++ ["backup-20221231-122000.tar.gz"],
           File (noon - timedelta 0 0 23 40 0)) ] all_succeed.

(** Daily archives on both sides of the four-day boundary, next to files
    that are no archives. *)
Definition mixed_daily : World :=
  world [ (BACKUPS_DAILY ++ ["a.tar.gz"], File (noon - timedelta 0 4 0 0 1));
          (BACKUPS_DAILY ++ ["b.tar.gz"], File (noon - timedelta 0 4 0 0 0));
          (BACKUPS_DAILY ++ ["c.tar.gz"], File (noon - timedelta 0 0 23 40 0));
          (BACKUPS_DAILY ++ ["notes.log"], File (noon - timedelta 0 10 0 0 0));
          (BACKUPS_DAILY ++ [".partial.tar.gz"], File (noon - timedelta 0 10 0 0 0));
          (BACKUPS_DAILY ++ ["2022"], Dir 0 true);
          (BACKUPS_DAILY ++ ["2022"; "old.tar.gz"], File (noon - timedelta 0 10 0 0 0)) ]
        all_succeed.

(** [systemctl start] exits with status 1; every other command succeeds. *)
Definition start_fails (argv : list string) (history : list event) (f : FS)
  : outcome * FS :=
  if bool_decide (argv = START_COMMAND) then (Exited 1, f) else (Exited 0, f).

Definition bare_start_fails : World := world [] start_fails.


(** [mixed_daily], one day later. *)
Definition mixed_daily_next_day : World :=
  {| fs := fs mixed_daily;
     clock := fun _ => noon + US_PER_DAY;
     ticks := 0;
     spawn := all_succeed;
     trace := [] |}.

(** Every tier holds an archive made an hour ago. *)
Definition all_recent : World :=
  {| fs := list_to_map
             ([ (BACKUPS_DAILY ++ ["d.tar.gz"], File (noon - timedelta 0 0 1 0 0));
                (BACKUPS_WEEKLY ++ ["w.tar.gz"], File (noon - timedelta 0 0 1 0 0));
                (BACKUPS_MONTHLY, Dir 0 true);
                (BACKUPS_MONTHLY ++ ["m.tar.gz"], File (noon - timedelta 0 0 1 0 0)) ]
              ++ skeleton);
     clock := fun _ => noon;
     ticks := 0;
     spawn := all_succeed;
     trace := [] |}.

(** The daily directory is there, and cannot be read. *)
Definition unreadable_daily : World :=
  world [ (BACKUPS_DAILY, Dir 0 false);
          (BACKUPS_DAILY ++ ["a.tar.gz"], File (noon - timedelta 0 0 1 0 0)) ]
        all_succeed.

(** The daily directory holds an old directory whose name ends in [.tar.gz]. *)
Definition directory_in_daily : World :=
  world [ (BACKUPS_DAILY ++ ["a.tar.gz"], File (noon - timedelta 0 5 0 0 0));
          (BACKUPS_DAILY ++ ["unpacked.tar.gz"], Dir (noon - timedelta 0 5 0 0 0) true);
          (BACKUPS_WEEKLY ++ ["w.tar.gz"], File (noon - timedelta 0 30 0 0 0)) ]
        all_succeed.

End Scenario.

(** * Properties *)

(** ** What [glob] returns *)

Section GlobFacts.

Import Glob.

Lemma relative_to_app (root p rel : Path) :
  relative_to root p = Some rel <-> p = root ++ rel.
Proof.
  revert p. induction root as [|r root IH]; intros p; simpl.
  - split; congruence.
  - destruct p as [|c p]; [split; discriminate|].
    destruct (String.eqb_spec r c) as [->|Hne].
    + rewrite IH. split; congruence.
    + split; [discriminate | intros [= Hrc _]; by destruct Hne].
Qed.

(** A relative name is returned exactly when the path exists, its last
    component is accepted by the pattern and the walk reaches it. *)
Lemma glob_elem (f : FS) (root rel : Path) :
  rel ∈ glob f root <-> is_Some (f !! (root ++ rel)) /\ matches f root rel = true.
Proof.
  unfold glob. rewrite list_elem_of_omap. split.
  - intros [[p i] [Hin Hsel]]. simpl in Hsel.
    apply elem_of_map_to_list in Hin.
    destruct (relative_to root p) as [rel'|] eqn:Hrel; [|discriminate].
    destruct (matches f root rel') eqn:Hm; [|discriminate].
    injection Hsel as <-. apply relative_to_app in Hrel. subst p. eauto.
  - intros [[i Hi] Hm]. exists (root ++ rel, i). split.
    + by apply elem_of_map_to_list.
    + simpl. rewrite (proj2 (relative_to_app root (root ++ rel) rel) eq_refl).
      by rewrite Hm.
Qed.

Lemma glob_NoDup (f : FS) (root : Path) : NoDup (glob f root).
Proof.
  unfold glob. pose proof (NoDup_fst_map_to_list f) as Hnd.
  induction (map_to_list f) as [|[p i] l IH]; simpl; [constructor|].
  simpl in Hnd. apply NoDup_cons in Hnd as [Hp Hnd].
  destruct (relative_to root p) as [rel|] eqn:Hrel; [|by apply IH].
  destruct (matches f root rel); [|by apply IH].
  apply NoDup_cons. split; [|by apply IH].
  intros Hin. apply list_elem_of_omap in Hin as [[q j] [Hq Hsel]]. simpl in Hsel.
  destruct (relative_to root q) as [rel'|] eqn:Hrel'; [|discriminate].
  destruct (matches f root rel'); [|discriminate].
  injection Hsel as ->. apply relative_to_app in Hrel, Hrel'. subst p q.
  apply Hp. apply list_elem_of_fmap. by exists (root ++ rel, j).
Qed.

(** Nothing is returned for a root that cannot be listed: a missing path, a
    regular file, an unreadable directory. *)
Lemma glob_unlistable (f : FS) (root : Path) :
  listable f root = false -> glob f root = [].
Proof.
  intros Hl. destruct (glob f root) as [|rel l] eqn:Hg; [done|].
  assert (Hin : rel ∈ glob f root) by (rewrite Hg; left).
  apply glob_elem in Hin as [_ Hm]. unfold matches in Hm.
  destruct rel as [|name rel]; [discriminate|].
  destruct (last (name :: rel)); [|discriminate].
  apply andb_true_iff in Hm as [_ Hr]. simpl in Hr. by rewrite Hl in Hr.
Qed.

(** Every name returned ends in [.tar.gz] and lies below the root. *)
Lemma glob_pattern (f : FS) (root rel : Path) :
  rel ∈ glob f root ->
  exists name, last rel = Some name /\ fnmatch_tar_gz name = true.
Proof.
  intros [_ Hm]%glob_elem. unfold matches in Hm.
  destruct (last rel) as [name|]; [|discriminate].
  apply andb_true_iff in Hm as [Hf _]. eauto.
Qed.

End GlobFacts.
(** ** Running the record operations *)

Section Records.

Lemma get_backup_files_run (root_dir : Path) (w : World) :
  get_backup_files root_dir w = (Ok (records (fs w) root_dir), emit (EvGlob root_dir) w).
Proof. reflexivity. Qed.

(** One evaluation of [is_older_than_delta], step by step: the clock is
    read, the threshold is computed, the metadata is read, once. *)
Lemma is_older_than_delta_run (self : BackupFile) (delta : Z) (w : World) :
  is_older_than_delta self delta w =
    let now := clock w (ticks w) in
    let w1 := emit (EvNow now) (tick w) in
    match Datetime.sub_timedelta now (Z.abs delta) with
    | None => (Raise OverflowError, w1)
    | Some dt =>
        match fs w !! path self with
        | Some i => (Ok (inode_mtime i <? dt), emit (EvStat (path self)) w1)
        | None => (Raise FileNotFoundError, emit (EvStat (path self)) w1)
        end
    end.
Proof.
  unfold is_older_than_delta, is_older_than_dt, get_mtime, datetime_sub,
    datetime_now, stat_mtime, bind, ret, raise. simpl.
  destruct (Datetime.sub_timedelta _ _); [|reflexivity].
  simpl. destruct (fs w !! path self); reflexivity.
Qed.

Lemma sub_timedelta_in_range (now delta : Z) :
  delta <= now <= Datetime.DATETIME_MAX -> 0 <= delta ->
  Datetime.sub_timedelta now delta = Some (now - delta).
Proof.
  intros [Hlo Hhi] Hd. unfold Datetime.sub_timedelta, Datetime.in_range.
  unfold Datetime.DATETIME_MIN.
  destruct (Z.leb_spec 0 (now - delta)); [|lia].
  destruct (Z.leb_spec (now - delta) Datetime.DATETIME_MAX); [reflexivity|lia].
Qed.

Lemma mtime_before_older_than (f : FS) (now threshold : Z) (r : BackupFile) :
  mtime_before f (now - threshold) r = true <-> older_than f now threshold r.
Proof.
  unfold mtime_before, older_than, last_modified_time.
  destruct (f !! path r) as [i|]; simpl.
  - rewrite Z.ltb_lt. split; [eauto|]. by intros [m [[= <-] Hm]].
  - split; [discriminate|]. by intros [m [[=] _]].
Qed.

Lemma records_exist (f : FS) (root_dir : Path) (r : BackupFile) :
  r ∈ records f root_dir -> is_Some (f !! path r).
Proof.
  unfold records.
  intros [p [-> [rel [-> Hrel]]%list_elem_of_fmap]]%list_elem_of_fmap. simpl. by apply glob_elem in Hrel as [? _].
Qed.

Lemma records_NoDup (f : FS) (root_dir : Path) :
  NoDup (path <$> records f root_dir).
Proof.
  unfold records. rewrite <- list_fmap_compose, list_fmap_id.
  apply NoDup_fmap_2; [|apply glob_NoDup].
  intros x y. apply app_inv_head.
Qed.

End Records.

(** ** Is a backup due? *)

Section NeedsBackup.

Variables (max_age now : Z).
Hypothesis max_age_range : 0 <= max_age <= now.
Hypothesis now_range : now <= Datetime.DATETIME_MAX.

(** With the clock at [now], [all(...)] over records that exist is the
    conjunction of the comparisons, and the disk is left alone. *)
Lemma py_all_older (l : list BackupFile) (w : World) :
  frozen_at now w ->
  (forall r, r ∈ l -> is_Some (fs w !! path r)) ->
  exists w',
    py_all (fun backup => is_older_than_delta backup max_age) l w
    = (Ok (forallb (mtime_before (fs w) (now - max_age)) l), w')
    /\ fs w' = fs w.
Proof.
  revert w. induction l as [|r l IH]; intros w Hclock Hex.
  - exists w. done.
  - cbn [py_all]. unfold bind at 1. rewrite is_older_than_delta_run. cbv zeta.
    rewrite Hclock, Z.abs_eq by lia.
    rewrite sub_timedelta_in_range by lia.
    destruct (Hex r) as [i Hi]; [left|].
    rewrite Hi. cbn [forallb]. unfold mtime_before at 1. rewrite Hi.
    destruct (inode_mtime i <? now - max_age).
    + destruct (IH (emit (EvStat (path r)) (emit (EvNow now) (tick w))))
        as [w' [Hrun Hfs]].
      * exact Hclock.
      * intros r' Hr'. apply Hex. by right.
      * exists w'. simpl in *. by rewrite Hrun.
    + eexists. split; reflexivity.
Qed.

Lemma scan_then_all_older (root_dir : Path) (w : World) :
  frozen_at now w ->
  exists w',
    (daily_backups <- get_backup_files root_dir ;;
     py_all (fun backup => is_older_than_delta backup max_age) daily_backups)%py w
    = (Ok (forallb (mtime_before (fs w) (now - max_age)) (records (fs w) root_dir)), w')
    /\ fs w' = fs w.
Proof.
  intros Hclock. unfold bind. rewrite get_backup_files_run.
  destruct (py_all_older (records (fs w) root_dir) (emit (EvGlob root_dir) w))
    as [w' [Hrun Hfs]].
  - exact Hclock.
  - intros r Hr. by apply records_exist in Hr.
  - exists w'. by rewrite Hrun.
Qed.

End NeedsBackup.

Lemma needs_backup_scan (t : tier) :
  needs_backup t =
    (backups <- get_backup_files (tier_dir t) ;;
     py_all (fun backup => is_older_than_delta backup (tolerance_adjusted_cadence t))
            backups)%py.
Proof. destruct t; reflexivity. Qed.

Lemma tolerance_adjusted_cadence_pos (t : tier) : 0 <= tolerance_adjusted_cadence t.
Proof. destruct t; vm_compute; discriminate. Qed.

Lemma needs_backup_run (t : tier) (w : World) (now : Z) :
  frozen_at now w ->
  tolerance_adjusted_cadence t <= now <= Datetime.DATETIME_MAX ->
  exists w',
    needs_backup t w
    = (Ok (forallb (mtime_before (fs w) (now - tolerance_adjusted_cadence t))
                   (records (fs w) (tier_dir t))), w')
    /\ fs w' = fs w.
Proof.
  intros Hclock [Hlo Hhi]. rewrite needs_backup_scan.
  apply scan_then_all_older; [|exact Hhi|exact Hclock].
  split; [apply tolerance_adjusted_cadence_pos|exact Hlo].
Qed.

Lemma forallb_mtime_before (f : FS) (now threshold : Z) (l : list BackupFile) :
  forallb (mtime_before f (now - threshold)) l = true
  <-> forall r, r ∈ l -> older_than f now threshold r.
Proof.
  rewrite forallb_forall. setoid_rewrite <- list_elem_of_In.
  by setoid_rewrite mtime_before_older_than.
Qed.

(** ** The deletion pass *)

Section Deletion.

Variables (delta now : Z).

(** One turn of the loop, step by step. *)
Lemma delete_if_older_run (r : BackupFile) (w : World) :
  delete_if_older delta r w =
    let t := clock w (ticks w) in
    let w1 := emit (EvNow t) (tick w) in
    match Datetime.sub_timedelta t (Z.abs delta) with
    | None => (Raise OverflowError, w1)
    | Some dt =>
        let w2 := emit (EvStat (path r)) w1 in
        match fs w !! path r with
        | None => (Raise FileNotFoundError, w2)
        | Some i =>
            if inode_mtime i <? dt then
              let w3 :=
                emit (EvUnlink (path r))
                  (emit (EvLog INFO "Deleting old backup %s (mtime %s is older than %s)"
                               [ArgPath (path r); ArgDatetime (inode_mtime i);
                                ArgTimedelta delta])
                     (emit (EvStat (path r)) w2)) in
              match i with
              | File _ => (Ok tt, set_fs (delete (path r) (fs w)) w3)
              | Dir _ _ => (Raise (IsADirectoryError (path r)), w3)
              end
            else (Ok tt, w2)
        end
    end.
Proof.
  unfold delete_if_older. unfold bind at 1. rewrite is_older_than_delta_run.
  cbv zeta. destruct (Datetime.sub_timedelta _ _) as [dt|]; [|reflexivity].
  destruct (fs w !! path r) as [i|] eqn:Hi; [|reflexivity].
  destruct (inode_mtime i <? dt); [|reflexivity].
  unfold bind, get_mtime, stat_mtime, logging_info, unlink.
  cbn [fs emit tick]. rewrite Hi. cbn [fs emit tick]. rewrite Hi.
  destruct i; reflexivity.
Qed.

Lemma sub_timedelta_Some (t d dt : Z) :
  Datetime.sub_timedelta t d = Some dt -> dt = t - d.
Proof.
  unfold Datetime.sub_timedelta. destruct (Datetime.in_range _); congruence.
Qed.

(** Frame: whatever happens during the loop, a path either keeps its inode
    or was a regular file of the list, strictly older than the threshold,
    and is gone. *)
Lemma py_for_delete_frame (l : list BackupFile) (w : World) (p : Path)
    (res : result unit) (w' : World) :
  frozen_at now w ->
  py_for l (delete_if_older delta) w = (res, w') ->
  fs w' !! p = fs w !! p
  \/ (fs w' !! p = None
      /\ (exists r, r ∈ l /\ path r = p)
      /\ exists m, fs w !! p = Some (File m) /\ m < now - Z.abs delta).
Proof.
  revert w. induction l as [|r l IH]; intros w Hclock Hrun.
  { injection Hrun as <- <-. by left. }
  cbn [py_for] in Hrun. unfold bind at 1 in Hrun.
  rewrite delete_if_older_run in Hrun. cbv zeta in Hrun. rewrite Hclock in Hrun.
  destruct (Datetime.sub_timedelta now (Z.abs delta)) as [dt|] eqn:Hsub;
    [|injection Hrun as <- <-; by left].
  apply sub_timedelta_Some in Hsub. subst dt.
  destruct (fs w !! path r) as [i|] eqn:Hi; [|injection Hrun as <- <-; by left].
  destruct (Z.ltb_spec (inode_mtime i) (now - Z.abs delta)) as [Hlt|Hge].
  - destruct i as [m|m rd]; [|injection Hrun as <- <-; by left].
    apply IH in Hrun; [|exact Hclock]. cbn [fs set_fs] in Hrun.
    destruct (decide (p = path r)) as [->|Hne].
    + right. split; [|split].
      * destruct Hrun as [Heq|[Hnone _]]; [|exact Hnone].
        by rewrite Heq, lookup_delete_eq.
      * exists r. split; [left|reflexivity].
      * exists m. done.
    + rewrite lookup_delete_ne in Hrun by done.
      destruct Hrun as [Heq|[Hnone [[r' [Hr' Hp]] Hold]]]; [by left|].
      right. split; [exact Hnone|]. split; [|exact Hold].
      exists r'. split; [by right|exact Hp].
  - apply IH in Hrun; [|exact Hclock]. cbn [fs emit tick] in Hrun.
    destruct Hrun as [Heq|[Hnone [[r' [Hr' Hp]] Hold]]]; [by left|].
    right. split; [exact Hnone|]. split; [|exact Hold].
    exists r'. split; [by right|exact Hp].
Qed.

Hypothesis delta_range : Z.abs delta <= now <= Datetime.DATETIME_MAX.

(** When every record exists and the ones to go are regular files, the loop
    runs to its end and has removed each record that was older. *)
Lemma py_for_delete_total (l : list BackupFile) (w : World) :
  frozen_at now w ->
  NoDup (path <$> l) ->
  (forall r, r ∈ l -> is_Some (fs w !! path r)) ->
  (forall r, r ∈ l -> mtime_before (fs w) (now - Z.abs delta) r = true ->
             is_regular_file (fs w) r) ->
  exists w',
    py_for l (delete_if_older delta) w = (Ok tt, w')
    /\ forall r, r ∈ l -> mtime_before (fs w) (now - Z.abs delta) r = true ->
                 fs w' !! path r = None.
Proof.
  revert w. induction l as [|r l IH]; intros w Hclock Hnd Hex Hfile.
  - exists w. split; [reflexivity|]. intros r Hr. by apply elem_of_nil in Hr.
  - rewrite fmap_cons in Hnd. apply NoDup_cons in Hnd as [Hfresh Hnd].
    assert (Hother : forall r', r' ∈ l -> path r' <> path r).
    { intros r' Hr' Heq. apply Hfresh. rewrite <- Heq. by apply list_elem_of_fmap_2. }
    cbn [py_for]. unfold bind at 1. rewrite delete_if_older_run. cbv zeta.
    rewrite Hclock, sub_timedelta_in_range by lia.
    destruct (Hex r) as [i Hi]; [left|]. rewrite Hi.
    destruct (inode_mtime i <? now - Z.abs delta) eqn:Hlt.
    + destruct (Hfile r) as [m Hm]; [left|by unfold mtime_before; rewrite Hi|].
      rewrite Hi in Hm. injection Hm as ->.
      match goal with |- context [py_for l _ ?x] => set (w1 := x) end.
      assert (Hsame : forall r', r' ∈ l -> fs w1 !! path r' = fs w !! path r').
      { intros r' Hr'. simpl. apply lookup_delete_ne. intros Heq.
        by apply (Hother r' Hr'). }
      destruct (IH w1) as [w' [Hrun Hgone]]; [exact Hclock|exact Hnd| | |].
      * intros r' Hr'. rewrite Hsame by done. apply Hex. by right.
      * intros r' Hr' Hold. unfold is_regular_file, mtime_before in *.
        rewrite Hsame in * by done. apply Hfile; [by right|exact Hold].
      * exists w'. split; [exact Hrun|].
        intros r' [->|Hr']%elem_of_cons Hold.
        -- pose proof (py_for_delete_frame l w1 (path r) _ _ Hclock Hrun) as Hframe.
           destruct Hframe as [Heq|[Hnone _]]; [|exact Hnone].
           rewrite Heq. simpl. apply lookup_delete_eq.
        -- apply Hgone; [exact Hr'|]. unfold mtime_before in *.
           by rewrite Hsame.
    + match goal with |- context [py_for l _ ?x] => set (w1 := x) end.
      destruct (IH w1) as [w' [Hrun Hgone]]; [exact Hclock|exact Hnd| | |].
      * intros r' Hr'. apply Hex. by right.
      * intros r' Hr'. apply Hfile. by right.
      * exists w'. split; [exact Hrun|].
        intros r' [->|Hr']%elem_of_cons Hold.
        -- unfold mtime_before in Hold. rewrite Hi in Hold. congruence.
        -- by apply Hgone.
Qed.

End Deletion.

Lemma retention_window_days (t : tier) :
  retention_window t = retention_days t * Datetime.US_PER_DAY.
Proof. destruct t; reflexivity. Qed.

Lemma retention_days_pos (t : tier) : 0 <= retention_days t * Datetime.US_PER_DAY.
Proof. destruct t; vm_compute; discriminate. Qed.

(** [delete_old_backups] is the three passes, in the order daily, weekly,
    monthly. *)
Lemma delete_old_backups_passes :
  delete_old_backups = (delete_pass Daily ;; delete_pass Weekly ;; delete_pass Monthly)%py.
Proof. reflexivity. Qed.

(** The frame of [delete_backups_older_than_delta], for any directory and
    any threshold, whether the pass ends normally or not. *)
Lemma delete_backups_frame (parent_dir : Path) (delta now : Z) (w : World) (p : Path)
    (res : result unit) (w' : World) :
  frozen_at now w ->
  delete_backups_older_than_delta parent_dir delta w = (res, w') ->
  fs w' !! p = fs w !! p
  \/ (fs w' !! p = None
      /\ (exists r, r ∈ records (fs w) parent_dir /\ path r = p)
      /\ exists m, fs w !! p = Some (File m) /\ m < now - Z.abs delta).
Proof.
  intros Hclock Hrun. unfold delete_backups_older_than_delta, bind in Hrun.
  rewrite get_backup_files_run in Hrun.
  by apply (py_for_delete_frame delta now _ _ p) in Hrun.
Qed.

Lemma ends_with_suffix (suffix s : string) :
  Glob.ends_with suffix s = true <-> exists stem, s = stem +:+ suffix.
Proof.
  induction s as [|c s IH].
  - change (Glob.ends_with suffix "") with (String.eqb "" suffix || false).
    rewrite orb_false_r, String.eqb_eq. split.
    + intros <-. by exists "".
    + intros [stem Hs]. destruct stem; [done|discriminate].
  - change (Glob.ends_with suffix (String c s))
      with (String.eqb (String c s) suffix || Glob.ends_with suffix s).
    rewrite orb_true_iff, String.eqb_eq, IH. split.
    + intros [<-|[stem ->]]; [by exists ""|by exists (String c stem)].
    + intros [[|c' stem] Hs]; simpl in Hs; [by left|].
      injection Hs as _ ->. right. by exists stem.
Qed.

(** ** The scanner on directories with nothing to list *)

Lemma glob_empty_directory (f : FS) (root : Path) :
  empty_directory f root -> Glob.glob f root = [].
Proof.
  intros [_ Hnone]. destruct (Glob.glob f root) as [|rel l] eqn:Hg; [done|].
  assert (Hin : rel ∈ Glob.glob f root) by (rewrite Hg; left).
  apply glob_elem in Hin as [[i Hi] Hm]. unfold Glob.matches in Hm.
  destruct rel as [|name rest]; [discriminate|].
  by rewrite Hnone in Hi.
Qed.

(** ** Creating a backup *)

Section CreateBackup.

Variables (parent_dir : Path) (w : World).

Lemma get_new_backup_filename_run (w0 : World) :
  let t := clock w0 (ticks w0) in
  get_new_backup_filename w0
  = (Ok ("backup-" +:+ Datetime.zero_padded 4 (Datetime.year_of t)
         +:+ Datetime.zero_padded 2 (Datetime.month_of t)
         +:+ Datetime.zero_padded 2 (Datetime.day_of t)
         +:+ "-" +:+ Datetime.zero_padded 2 (Datetime.hour_of t)
         +:+ Datetime.zero_padded 2 (Datetime.minute_of t)
         +:+ Datetime.zero_padded 2 (Datetime.second_of t)
         +:+ ".tar.gz"),
     emit (EvNow t) (tick w0)).
Proof. reflexivity. Qed.

(** What [create_backup] has done when [systemctl stop] did not succeed. *)
Lemma create_backup_stop_failed :
  fst (spawn w STOP_COMMAND
             (trace w ++ [EvLog INFO "Stopping the Minecraft server." []]) (fs w))
  <> Exited 0 ->
  exists e w',
    create_backup parent_dir w = (Raise e, w')
    /\ (e = FileNotFoundError
        \/ exists returncode, returncode <> 0
                              /\ e = CalledProcessError returncode STOP_COMMAND)
    /\ trace w' = trace w ++ [EvLog INFO "Stopping the Minecraft server." [];
                              EvRun STOP_COMMAND].
Proof.
  intros Hstop.
  unfold create_backup, stop_minecraft_server, bind, logging_info, subprocess_run.
  cbn [fs trace spawn emit] in *.
  destruct (spawn w STOP_COMMAND _ (fs w)) as [[returncode|] f'].
  - destruct (Z.eqb_spec returncode 0) as [->|Hne]; [by destruct Hstop|].
    eexists _, _. split; [reflexivity|]. split; [right; eauto|].
    cbn [trace set_fs emit]. by rewrite <- app_assoc.
  - eexists _, _. split; [reflexivity|]. split; [by left|].
    cbn [trace emit]. by rewrite <- app_assoc.
Qed.

(** What [create_backup] has done when [systemctl stop] succeeded and [tar]
    then exited with a status other than 0. *)
Lemma create_backup_tar_failed (returncode : Z) :
  (forall history f, fst (spawn w STOP_COMMAND history f) = Exited 0) ->
  returncode <> 0 ->
  (forall history f, fst (spawn w (tar_command (new_backup_path parent_dir w)) history f)
                     = Exited returncode) ->
  exists w',
    create_backup parent_dir w
    = (Raise (CalledProcessError returncode (tar_command (new_backup_path parent_dir w))), w')
    /\ trace w' = trace w ++ [EvLog INFO "Stopping the Minecraft server." [];
                              EvRun STOP_COMMAND;
                              EvNow (clock w (ticks w));
                              EvLog INFO "Creating backup file: %s" [ArgPath (new_backup_path parent_dir w)];
                              EvRun (tar_command (new_backup_path parent_dir w))].
Proof.
  intros Hstop Hne Htar.
  unfold create_backup, stop_minecraft_server, get_new_backup_filename, bind,
    logging_info, subprocess_run, datetime_now, ret.
  cbn [fs trace spawn clock ticks emit tick set_fs].
  pose proof (Hstop (trace w ++ [EvLog INFO "Stopping the Minecraft server." []]) (fs w))
    as Hs.
  destruct (spawn w STOP_COMMAND _ (fs w)) as [o1 f1]. simpl in Hs. subst o1.
  cbn [Z.eqb fs trace spawn clock ticks emit tick set_fs].
  fold (new_backup_path parent_dir w).
  match goal with
  | |- context [spawn w (tar_command (new_backup_path parent_dir w)) ?h ?f] =>
      pose proof (Htar h f) as Ht;
      destruct (spawn w (tar_command (new_backup_path parent_dir w)) h f) as [o2 f2]
  end.
  simpl in Ht. subst o2.
  destruct (Z.eqb_spec returncode 0) as [->|_]; [done|].
  eexists. split; [reflexivity|].
  cbn [trace set_fs emit tick]. by rewrite <- !app_assoc.
Qed.

End CreateBackup.

(** ** How often the metadata is read *)

Section StatCount.

Lemma stat_count_app (p : Path) (evs1 evs2 : list event) :
  stat_count p (evs1 ++ evs2) = (stat_count p evs1 + stat_count p evs2)%nat.
Proof.
  induction evs1 as [|e evs1 IH]; [reflexivity|].
  destruct e; simpl; rewrite IH; lia.
Qed.

(** The events of one [is_older_than_delta]: a reading of the clock, then at
    most one reading of the metadata, of the record's own path. *)
Lemma is_older_than_delta_events (self : BackupFile) (delta : Z) (w : World) :
  exists evs,
    trace (snd (is_older_than_delta self delta w)) = trace w ++ evs
    /\ forall p, (stat_count p evs <= if decide (p = path self) then 1 else 0)%nat.
Proof.
  rewrite is_older_than_delta_run. cbv zeta.
  destruct (Datetime.sub_timedelta _ _) as [dt|].
  - exists [EvNow (clock w (ticks w)); EvStat (path self)]. split.
    + destruct (fs w !! path self); simpl; by rewrite <- app_assoc.
    + intros p. simpl. repeat case_decide; subst; try done; lia.
  - exists [EvNow (clock w (ticks w))]. split; [reflexivity|].
    intros p. simpl. case_decide; lia.
Qed.

(** Over records with pairwise distinct paths, [all(...)] reads the metadata
    of each path at most once, and of no other path. *)
Lemma py_all_events (delta : Z) (l : list BackupFile) (w : World) :
  NoDup (path <$> l) ->
  exists evs,
    trace (snd (py_all (fun backup => is_older_than_delta backup delta) l w))
    = trace w ++ evs
    /\ forall p, (stat_count p evs <= 1)%nat
                 /\ (p ∉ path <$> l -> stat_count p evs = 0%nat).
Proof.
  revert w. induction l as [|r l IH]; intros w Hnd.
  { exists []. split; [by rewrite app_nil_r|]. intros p. simpl. split; [lia|done]. }
  rewrite fmap_cons in Hnd. apply NoDup_cons in Hnd as [Hfresh Hnd].
  destruct (is_older_than_delta_events r delta w) as [evs1 [Htr1 Hc1]].
  cbn [py_all]. unfold bind at 1.
  destruct (is_older_than_delta r delta w) as [[[|]|e] w1]; simpl snd in *.
  - destruct (IH w1 Hnd) as [evs2 [Htr2 Hc2]].
    exists (evs1 ++ evs2). split; [by rewrite Htr2, Htr1, app_assoc|].
    intros p. rewrite stat_count_app. specialize (Hc1 p).
    destruct (Hc2 p) as [Hle Hzero]. rewrite fmap_cons, not_elem_of_cons.
    case_decide as Hp.
    + subst p. rewrite (Hzero Hfresh). split; [lia|]. by intros [? _].
    + split; [lia|]. intros [_ Hnot]. rewrite (Hzero Hnot). lia.
  - exists evs1. split; [exact Htr1|]. intros p. specialize (Hc1 p).
    rewrite fmap_cons, not_elem_of_cons.
    case_decide as Hp; [split; [lia|by intros [? _]]|split; lia].
  - exists evs1. split; [exact Htr1|]. intros p. specialize (Hc1 p).
    rewrite fmap_cons, not_elem_of_cons.
    case_decide as Hp; [split; [lia|by intros [? _]]|split; lia].
Qed.

End StatCount.

Example ord2ymd_2023 : Datetime.ord2ymd (Datetime.ymd2ord 2023 1 1) = (2023, 1, 1).
Proof. reflexivity. Qed.

Example ord2ymd_leap : Datetime.ord2ymd (Datetime.ymd2ord 2024 2 29) = (2024, 2, 29).
Proof. reflexivity. Qed.

Example ord2ymd_max : Datetime.ord2ymd Datetime.MAXORDINAL = (9999, 12, 31).
Proof. reflexivity. Qed.

Example glob_skips_hidden_and_unreadable :
  Glob.glob (fs Scenario.mixed_daily) BACKUPS_DAILY
  = [["2022"; "old.tar.gz"]; ["c.tar.gz"]; ["b.tar.gz"]; ["a.tar.gz"]].
Proof. vm_compute. reflexivity. Qed.

Example glob_empty_tier : Glob.glob (fs Scenario.bare) BACKUPS_DAILY = [].
Proof. vm_compute. reflexivity. Qed.

(** As in the unit test of [is_older_than_delta]: an archive of ten days is
    older than four days and not older than sixty. *)
Example is_older_than_delta_ten_days :
  let old := {| path := BACKUPS_DAILY ++ ["2022"; "old.tar.gz"] |} in
  fst (is_older_than_delta old (Datetime.timedelta 0 4 0 0 0) Scenario.mixed_daily)
  = Ok true
  /\ fst (is_older_than_delta old (Datetime.timedelta 0 60 0 0 0) Scenario.mixed_daily)
     = Ok false.
Proof. vm_compute. split; reflexivity. Qed.

Example strftime_log :
  Datetime.strftime "%Y%m%d-%H%M%S.log" (Datetime.datetime 2024 12 31 23 59 58)
  = "20241231-235958.log".
Proof. reflexivity. Qed.

(** * The claims *)

(** C1: for every tier, [needs_backup] returns true exactly when every record
    of the tier's directory is older than the tolerance-adjusted cadence (one
    day, one week, thirty days, each less thirty minutes), the clock standing
    at [now]; over an empty record set it returns true, whatever the clock. *)
Theorem needs_backup_iff_all_older (t : tier) (w : World) :
  (records (fs w) (tier_dir t) = [] -> exists w', needs_backup t w = (Ok true, w'))
  /\ forall now,
      frozen_at now w ->
      tolerance_adjusted_cadence t <= now <= Datetime.DATETIME_MAX ->
      exists b w',
        needs_backup t w = (Ok b, w')
        /\ (b = true <->
            forall r, r ∈ records (fs w) (tier_dir t) ->
                      older_than (fs w) now (tolerance_adjusted_cadence t) r).
Proof.
  split.
  - intros Hempty. rewrite needs_backup_scan. unfold bind.
    rewrite get_backup_files_run, Hempty. eexists. reflexivity.
  - intros now Hclock Hrange.
    destruct (needs_backup_run t w now Hclock Hrange) as [w' [Hrun _]].
    eexists _, w'. split; [exact Hrun|]. apply forallb_mtime_before.
Qed.

Lemma needs_backup_iff_all_older_witness :
  exists b w',
    needs_backup Daily Scenario.mixed_daily = (Ok b, w')
    /\ (b = true <->
        forall r, r ∈ records (fs Scenario.mixed_daily) (tier_dir Daily) ->
                  older_than (fs Scenario.mixed_daily) Scenario.noon
                             (tolerance_adjusted_cadence Daily) r).
Proof.
  apply (proj2 (needs_backup_iff_all_older Daily Scenario.mixed_daily) Scenario.noon).
  - intros n. reflexivity.
  - vm_compute. split; discriminate.
Defined.

(** C5, as amended: in a daily tier holding exactly one archive, 23 hours 40
    minutes old, [needs_daily_backup] returns true: the archive is older than
    the effective threshold of 23 hours 30 minutes, so a backup is due. *)
Theorem needs_daily_backup_at_23h40m (w : World) (now : Z) (r : BackupFile) :
  frozen_at now w ->
  Datetime.US_PER_DAY <= now <= Datetime.DATETIME_MAX ->
  records (fs w) BACKUPS_DAILY = [r] ->
  last_modified_time (fs w) r = Some (now - Datetime.timedelta 0 0 23 40 0) ->
  exists w', needs_daily_backup w = (Ok true, w').
Proof.
  intros Hclock [Hlo Hhi] Hrecords Hmtime.
  assert (Hday : Datetime.US_PER_DAY = 86400000000) by reflexivity.
  assert (Hthr : tolerance_adjusted_cadence Daily = 84600000000) by reflexivity.
  assert (Hage : Datetime.timedelta 0 0 23 40 0 = 85200000000) by reflexivity.
  destruct (needs_backup_run Daily w now Hclock) as [w' [Hrun _]]; [lia|].
  exists w'. cbn [needs_backup] in Hrun. rewrite Hrun. f_equal. f_equal.
  apply forallb_mtime_before.
  cbn [tier_dir]. rewrite Hrecords. intros r' ->%list_elem_of_singleton.
  exists (now - Datetime.timedelta 0 0 23 40 0). split; [exact Hmtime|lia].
Qed.

Lemma needs_daily_backup_at_23h40m_witness :
  exists w', needs_daily_backup Scenario.one_recent_daily = (Ok true, w').
Proof.
  apply (needs_daily_backup_at_23h40m Scenario.one_recent_daily Scenario.noon
           {| path := BACKUPS_DAILY ++ ["backup-20221231-122000.tar.gz"] |}).
  - intros n. reflexivity.
  - vm_compute. split; discriminate.
  - vm_compute. reflexivity.
  - vm_compute. reflexivity.
Defined.

(** C5, as the specification states it, fails: with one archive aged 23 hours
    40 minutes the check does not return false. *)
Lemma needs_daily_backup_23h40m_not_false :
  records (fs Scenario.one_recent_daily) BACKUPS_DAILY
  = [ {| path := BACKUPS_DAILY ++ ["backup-20221231-122000.tar.gz"] |} ]
  /\ last_modified_time (fs Scenario.one_recent_daily)
       {| path := BACKUPS_DAILY ++ ["backup-20221231-122000.tar.gz"] |}
     = Some (Scenario.noon - (23 * Datetime.US_PER_HOUR + 40 * Datetime.US_PER_MINUTE))
  /\ clock Scenario.one_recent_daily 0%nat = Scenario.noon
  /\ fst (needs_daily_backup Scenario.one_recent_daily) = Ok true
  /\ fst (needs_daily_backup Scenario.one_recent_daily) <> Ok false.
Proof.
  repeat split; try (vm_compute; reflexivity). vm_compute. discriminate.
Qed.

(** C8: negating the duration changes nothing: the same answer, the same
    exception, the same effects. *)
Theorem is_older_than_delta_sign_insensitive (self : BackupFile) (delta : Z) (w : World) :
  is_older_than_delta self (- delta) w = is_older_than_delta self delta w.
Proof.
  unfold is_older_than_delta. by rewrite Z.abs_opp.
Qed.

(** C2: for every tier, with the clock at [now], the deletion pass runs to its
    end and removes exactly the records whose last-modified time is strictly
    before [now] less the retention window (four days, three weeks, sixty
    days); a record exactly at that boundary stays as it is.  The records to
    remove are regular files. *)
Theorem delete_pass_removes_iff_older (t : tier) (w : World) (now : Z) :
  let window := retention_days t * Datetime.US_PER_DAY in
  frozen_at now w ->
  window <= now <= Datetime.DATETIME_MAX ->
  (forall r, r ∈ records (fs w) (tier_dir t) ->
             older_than (fs w) now window r -> is_regular_file (fs w) r) ->
  exists w',
    delete_pass t w = (Ok tt, w')
    /\ forall r, r ∈ records (fs w) (tier_dir t) ->
         (fs w' !! path r = None <-> older_than (fs w) now window r)
         /\ (last_modified_time (fs w) r = Some (now - window) ->
             fs w' !! path r = fs w !! path r).
Proof.
  intros window Hclock Hrange Hfiles.
  pose proof (retention_days_pos t) as Hpos. fold window in Hpos.
  assert (Habs : Z.abs (retention_window t) = window).
  { rewrite retention_window_days. by apply Z.abs_eq. }
  destruct (py_for_delete_total (retention_window t) now
              ltac:(by rewrite Habs) (records (fs w) (tier_dir t))
              (emit (EvGlob (tier_dir t)) w)) as [w' [Hrun Hgone]].
  - exact Hclock.
  - apply records_NoDup.
  - intros r Hr. by apply records_exist in Hr.
  - intros r Hr Hold. apply Hfiles; [exact Hr|].
    apply mtime_before_older_than. by rewrite <- Habs.
  - assert (Hpass : delete_pass t w = (Ok tt, w')).
    { unfold delete_pass, delete_backups_older_than_delta, bind.
      by rewrite get_backup_files_run. }
    exists w'. split; [exact Hpass|]. intros r Hr.
    pose proof (delete_backups_frame _ _ now w (path r) _ _ Hclock Hpass) as Hframe.
    rewrite Habs in Hframe. destruct (records_exist _ _ _ Hr) as [i Hi].
    split; [split|].
    + intros Hnone. destruct Hframe as [Heq|[_ [_ [m [Hm Hlt]]]]]; [congruence|].
      exists m. split; [|exact Hlt]. unfold last_modified_time. by rewrite Hm.
    + intros Hold. apply Hgone; [exact Hr|]. rewrite Habs.
      by apply mtime_before_older_than.
    + intros Hat. destruct Hframe as [Heq|[_ [_ [m [Hm Hlt]]]]]; [exact Heq|].
      unfold last_modified_time in Hat. rewrite Hm in Hat. simpl in Hat.
      injection Hat as ->. lia.
Qed.

Lemma delete_pass_removes_iff_older_witness :
  let window := retention_days Daily * Datetime.US_PER_DAY in
  exists w',
    delete_pass Daily Scenario.mixed_daily = (Ok tt, w')
    /\ forall r, r ∈ records (fs Scenario.mixed_daily) (tier_dir Daily) ->
         (fs w' !! path r = None <->
          older_than (fs Scenario.mixed_daily) Scenario.noon window r)
         /\ (last_modified_time (fs Scenario.mixed_daily) r
             = Some (Scenario.noon - window) ->
             fs w' !! path r = fs Scenario.mixed_daily !! path r).
Proof.
  apply (delete_pass_removes_iff_older Daily Scenario.mixed_daily Scenario.noon).
  - intros n. reflexivity.
  - vm_compute. split; discriminate.
  - intros r Hr _.
    assert (Hrecords :
              records (fs Scenario.mixed_daily) (tier_dir Daily)
              = (fun p => {| path := BACKUPS_DAILY ++ p |})
                  <$> [["2022"; "old.tar.gz"]; ["c.tar.gz"]; ["b.tar.gz"]; ["a.tar.gz"]])
      by (vm_compute; reflexivity).
    rewrite Hrecords in Hr. apply list_elem_of_In in Hr.
    cbn [fmap list_fmap In] in Hr.
    destruct Hr as [<-|[<-|[<-|[<-|[]]]]]; eexists; vm_compute; reflexivity.
Defined.

(** C10: the deletion pass of a tier changes nothing but the archives it
    removes: a path either names after the pass what it named before, or it
    was a regular file found by the pattern below the tier's directory (its
    last component ends in [.tar.gz]), strictly older than the retention
    window, and is gone.  This holds also when the pass is cut short by an
    exception. *)
Theorem delete_pass_frame (t : tier) (w : World) (now : Z) (p : Path) :
  frozen_at now w ->
  let w' := snd (delete_pass t w) in
  fs w' !! p = fs w !! p
  \/ (fs w' !! p = None
      /\ (exists filename stem,
            filename ∈ Glob.glob (fs w) (tier_dir t)
            /\ p = tier_dir t ++ filename
            /\ last filename = Some (stem +:+ ".tar.gz"))
      /\ exists m, fs w !! p = Some (File m)
                   /\ m < now - retention_days t * Datetime.US_PER_DAY).
Proof.
  intros Hclock w'.
  destruct (delete_pass t w) as [res w''] eqn:Hrun. subst w'. simpl snd.
  pose proof (delete_backups_frame _ _ now w p _ _ Hclock Hrun) as Hframe.
  rewrite retention_window_days, Z.abs_eq in Hframe by apply retention_days_pos.
  destruct Hframe as [Heq|[Hnone [[r [Hr Hp]] Hold]]]; [by left|].
  right. split; [exact Hnone|]. split; [|exact Hold].
  unfold records in Hr.
  apply list_elem_of_fmap in Hr as [q [-> [filename [-> Hin]]%list_elem_of_fmap]].
  destruct (glob_pattern _ _ _ Hin) as [name [Hlast Hmatch]].
  apply ends_with_suffix in Hmatch as [stem ->].
  exists filename, stem. split; [exact Hin|]. split; [by rewrite <- Hp|exact Hlast].
Qed.

Lemma delete_pass_frame_witness :
  let p := BACKUPS_DAILY ++ ["notes.log"] in
  fs (snd (delete_pass Daily Scenario.mixed_daily)) !! p = fs Scenario.mixed_daily !! p
  \/ (fs (snd (delete_pass Daily Scenario.mixed_daily)) !! p = None
      /\ (exists filename stem,
            filename ∈ Glob.glob (fs Scenario.mixed_daily) (tier_dir Daily)
            /\ p = tier_dir Daily ++ filename
            /\ last filename = Some (stem +:+ ".tar.gz"))
      /\ exists m, fs Scenario.mixed_daily !! p = Some (File m)
                   /\ m < Scenario.noon - retention_days Daily * Datetime.US_PER_DAY).
Proof.
  apply (delete_pass_frame Daily Scenario.mixed_daily Scenario.noon
           (BACKUPS_DAILY ++ ["notes.log"])).
  intros n. reflexivity.
Defined.

(** C3, as amended: when [systemctl stop] has succeeded and [tar] exits with a
    status other than 0, [create_backup] raises the [CalledProcessError] of
    [tar] to its caller, and the start command is not run: the last thing
    [create_backup] did is to run [tar]. *)
Theorem create_backup_tar_failure_skips_start
    (parent_dir : Path) (w : World) (returncode : Z) :
  (forall history f, fst (spawn w STOP_COMMAND history f) = Exited 0) ->
  returncode <> 0 ->
  (forall history f,
      fst (spawn w (tar_command (new_backup_path parent_dir w)) history f)
      = Exited returncode) ->
  exists w' evs,
    create_backup parent_dir w
    = (Raise (CalledProcessError returncode (tar_command (new_backup_path parent_dir w))),
       w')
    /\ trace w' = trace w ++ evs
    /\ invoked STOP_COMMAND evs = true
    /\ invoked (tar_command (new_backup_path parent_dir w)) evs = true
    /\ invoked START_COMMAND evs = false.
Proof.
  intros Hstop Hne Htar.
  destruct (create_backup_tar_failed parent_dir w returncode Hstop Hne Htar)
    as [w' [Hrun Htrace]].
  eexists w', _. split; [exact Hrun|]. split; [exact Htrace|].
  cbn [invoked].
  rewrite (bool_decide_eq_true_2 (STOP_COMMAND = STOP_COMMAND)) by reflexivity.
  rewrite (bool_decide_eq_true_2 (tar_command _ = tar_command _)) by reflexivity.
  rewrite (bool_decide_eq_false_2 (STOP_COMMAND = START_COMMAND)) by discriminate.
  rewrite (bool_decide_eq_false_2 (tar_command _ = START_COMMAND)) by discriminate.
  rewrite orb_true_r. by repeat split.
Qed.

Lemma create_backup_tar_failure_skips_start_witness :
  exists w' evs,
    create_backup BACKUPS_DAILY Scenario.bare_tar_fails
    = (Raise (CalledProcessError 2
                (tar_command (new_backup_path BACKUPS_DAILY Scenario.bare_tar_fails))),
       w')
    /\ trace w' = trace Scenario.bare_tar_fails ++ evs
    /\ invoked STOP_COMMAND evs = true
    /\ invoked (tar_command (new_backup_path BACKUPS_DAILY Scenario.bare_tar_fails)) evs
       = true
    /\ invoked START_COMMAND evs = false.
Proof.
  apply (create_backup_tar_failure_skips_start BACKUPS_DAILY Scenario.bare_tar_fails 2).
  - intros history f. reflexivity.
  - discriminate.
  - intros history f. reflexivity.
Defined.

(** C3, as the specification states it, fails: [tar] exits with status 2,
    [create_backup] reports the failure, and the server has been stopped but
    not started again. *)
Lemma create_backup_tar_failure_leaves_server_stopped :
  let run := create_backup BACKUPS_DAILY Scenario.bare_tar_fails in
  fst run
  = Raise (CalledProcessError 2
             (tar_command (BACKUPS_DAILY ++ ["backup-20230101-120000.tar.gz"])))
  /\ invoked STOP_COMMAND (trace (snd run)) = true
  /\ invoked START_COMMAND (trace (snd run)) = false.
Proof. vm_compute. repeat split. Qed.

(** C4, at its failing input: noon on 2023-01-01, every command succeeding, a
    console that would answer.  [create_backup] stops the server first, asks
    the console nothing, and names the archive after the clock alone. *)
Theorem create_backup_has_no_gametime :
  let run := create_backup BACKUPS_DAILY Scenario.bare in
  fst run = Ok {| path := BACKUPS_DAILY ++ ["backup-20230101-120000.tar.gz"] |}
  /\ trace (snd run)
     = [ EvLog INFO "Stopping the Minecraft server." [];
         EvRun STOP_COMMAND;
         EvNow Scenario.noon;
         EvLog INFO "Creating backup file: %s"
               [ArgPath (BACKUPS_DAILY ++ ["backup-20230101-120000.tar.gz"])];
         EvRun ["tar"; "-czhf";
                "/srv/minecraft/backups/daily/backup-20230101-120000.tar.gz";
                "/srv/minecraft/current"];
         EvLog INFO "Starting the Minecraft server." [];
         EvRun START_COMMAND ]
  /\ invoked ["/srv/minecraft/scripts/rcon.sh"; "time query gametime"] (trace (snd run))
     = false.
Proof. vm_compute. repeat split. Qed.

(** C6, as amended: over a directory that exists and is empty the scanner
    returns the empty list; over a directory that does not exist, or that
    cannot be read, it returns the empty list as well.  No error is raised. *)
Theorem get_backup_files_nothing_to_list (root_dir : Path) (w : World) :
  empty_directory (fs w) root_dir
  \/ fs w !! root_dir = None
  \/ (exists m, fs w !! root_dir = Some (Dir m false)) ->
  get_backup_files root_dir w = (Ok [], emit (EvGlob root_dir) w).
Proof.
  intros Hcase. rewrite get_backup_files_run. unfold records.
  assert (Hglob : Glob.glob (fs w) root_dir = []); [|by rewrite Hglob].
  destruct Hcase as [Hempty|[Hmissing|[m Hunreadable]]].
  - by apply glob_empty_directory.
  - apply glob_unlistable. unfold Glob.listable. by rewrite Hmissing.
  - apply glob_unlistable. unfold Glob.listable. by rewrite Hunreadable.
Qed.

Lemma get_backup_files_nothing_to_list_witness :
  get_backup_files BACKUPS_MONTHLY Scenario.bare
  = (Ok [], emit (EvGlob BACKUPS_MONTHLY) Scenario.bare).
Proof.
  apply (get_backup_files_nothing_to_list BACKUPS_MONTHLY Scenario.bare).
  right. left. vm_compute. reflexivity.
Defined.

(** C6, as the specification states it, fails: the monthly directory does not
    exist, and the scanner returns a result, the empty list. *)
Lemma get_backup_files_missing_directory_returns :
  fs Scenario.bare !! BACKUPS_MONTHLY = None
  /\ fst (get_backup_files BACKUPS_MONTHLY Scenario.bare) = Ok [].
Proof. vm_compute. split; reflexivity. Qed.

(** C7: when [systemctl stop] does not succeed, [create_backup] raises the
    error of the stop command and has run nothing after it: no [tar], under
    any name. *)
Theorem create_backup_aborts_when_stop_fails (parent_dir : Path) (w : World) :
  (forall history f, fst (spawn w STOP_COMMAND history f) <> Exited 0) ->
  exists e w' evs,
    create_backup parent_dir w = (Raise e, w')
    /\ (e = FileNotFoundError
        \/ exists returncode, returncode <> 0
                              /\ e = CalledProcessError returncode STOP_COMMAND)
    /\ trace w' = trace w ++ evs
    /\ programs evs = ["sudo"]
    /\ forall backup_path, invoked (tar_command backup_path) evs = false.
Proof.
  intros Hstop.
  destruct (create_backup_stop_failed parent_dir w (Hstop _ _))
    as [e [w' [Hrun [He Htrace]]]].
  eexists e, w', _. split; [exact Hrun|]. split; [exact He|].
  split; [exact Htrace|]. split; [reflexivity|].
  intros backup_path. cbn [invoked].
  by rewrite bool_decide_eq_false_2 by discriminate.
Qed.

Lemma create_backup_aborts_when_stop_fails_witness :
  exists e w' evs,
    create_backup BACKUPS_DAILY Scenario.bare_stop_fails = (Raise e, w')
    /\ (e = FileNotFoundError
        \/ exists returncode, returncode <> 0
                              /\ e = CalledProcessError returncode STOP_COMMAND)
    /\ trace w' = trace Scenario.bare_stop_fails ++ evs
    /\ programs evs = ["sudo"]
    /\ forall backup_path, invoked (tar_command backup_path) evs = false.
Proof.
  apply (create_backup_aborts_when_stop_fails BACKUPS_DAILY Scenario.bare_stop_fails).
  intros history f. vm_compute. discriminate.
Defined.

(** C9, as amended: one comparison reads the metadata of its record at most
    once, and of no other path, and a whole evaluation of [needs_backup] reads
    no record twice.  In the deletion pass the comparison is the first thing
    done for a record and the only thing done for a record that is not
    selected; a record that is selected is read a second time, for the log
    line, before it is unlinked: two readings in all. *)
Theorem mtime_reads_per_decision :
  (forall self delta w,
      exists evs,
        trace (snd (is_older_than_delta self delta w)) = trace w ++ evs
        /\ (stat_count (path self) evs <= 1)%nat
        /\ forall p, p <> path self -> stat_count p evs = 0%nat)
  /\ (forall t w,
         exists evs,
           trace (snd (needs_backup t w)) = trace w ++ evs
           /\ forall p, (stat_count p evs <= 1)%nat)
  /\ (forall delta backup_file w,
         fst (is_older_than_delta backup_file delta w) <> Ok true ->
         trace (snd (delete_if_older delta backup_file w))
         = trace (snd (is_older_than_delta backup_file delta w)))
  /\ (forall delta backup_file w,
         fst (is_older_than_delta backup_file delta w) = Ok true ->
         exists evs,
           trace (snd (delete_if_older delta backup_file w)) = trace w ++ evs
           /\ stat_count (path backup_file) evs = 2%nat).
Proof.
  split; [|split; [|split]].
  - intros self delta w.
    destruct (is_older_than_delta_events self delta w) as [evs [Htrace Hcount]].
    exists evs. split; [exact Htrace|]. split.
    + specialize (Hcount (path self)). by case_decide.
    + intros p Hp. specialize (Hcount p). case_decide; [done|lia].
  - intros t w. rewrite needs_backup_scan. unfold bind.
    rewrite get_backup_files_run.
    destruct (py_all_events (tolerance_adjusted_cadence t)
                (records (fs w) (tier_dir t)) (emit (EvGlob (tier_dir t)) w)
                (records_NoDup _ _)) as [evs [Htrace Hcount]].
    exists (EvGlob (tier_dir t) :: evs). split.
    + rewrite Htrace. cbn [trace emit]. by rewrite <- app_assoc.
    + intros p. cbn [stat_count]. apply Hcount.
  - intros delta backup_file w Hkept. unfold delete_if_older, bind.
    destruct (is_older_than_delta backup_file delta w) as [[[|]|e] w1];
      [by destruct Hkept|reflexivity|reflexivity].
  - intros delta backup_file w Hselected.
    rewrite is_older_than_delta_run in Hselected. rewrite delete_if_older_run.
    cbv zeta in *.
    destruct (Datetime.sub_timedelta _ _) as [dt|]; [|discriminate].
    destruct (fs w !! path backup_file) as [i|]; [|discriminate].
    cbn [fst] in Hselected. injection Hselected as ->.
    exists [ EvNow (clock w (ticks w));
             EvStat (path backup_file);
             EvStat (path backup_file);
             EvLog INFO "Deleting old backup %s (mtime %s is older than %s)"
                   [ArgPath (path backup_file); ArgDatetime (inode_mtime i);
                    ArgTimedelta delta];
             EvUnlink (path backup_file) ].
    split.
    + destruct i; cbn [snd trace set_fs emit tick]; by rewrite <- !app_assoc.
    + cbn [stat_count]. by rewrite decide_True.
Qed.

Lemma mtime_reads_per_decision_witness :
  let kept := {| path := BACKUPS_DAILY ++ ["c.tar.gz"] |} in
  let selected := {| path := BACKUPS_DAILY ++ ["a.tar.gz"] |} in
  trace (snd (delete_if_older (retention_window Daily) kept Scenario.mixed_daily))
  = trace (snd (is_older_than_delta kept (retention_window Daily) Scenario.mixed_daily))
  /\ exists evs,
      trace (snd (delete_if_older (retention_window Daily) selected Scenario.mixed_daily))
      = trace Scenario.mixed_daily ++ evs
      /\ stat_count (path selected) evs = 2%nat.
Proof.
  split.
  - apply (proj1 (proj2 (proj2 mtime_reads_per_decision))). vm_compute. discriminate.
  - apply (proj2 (proj2 (proj2 mtime_reads_per_decision))). vm_compute. reflexivity.
Defined.

(** C9, as the specification states it, fails: deciding on and removing one
    archive older than four days reads its metadata twice, on lines 161 and
    165 of the script. *)
Lemma deletion_reads_selected_record_twice :
  fst (is_older_than_delta {| path := BACKUPS_DAILY ++ ["a.tar.gz"] |}
         (retention_window Daily) Scenario.mixed_daily) = Ok true
  /\ fst (delete_if_older (retention_window Daily)
            {| path := BACKUPS_DAILY ++ ["a.tar.gz"] |} Scenario.mixed_daily) = Ok tt
  /\ stat_count (BACKUPS_DAILY ++ ["a.tar.gz"])
       (trace (snd (delete_if_older (retention_window Daily)
                      {| path := BACKUPS_DAILY ++ ["a.tar.gz"] |} Scenario.mixed_daily)))
     = 2%nat
  /\ ~ (stat_count (BACKUPS_DAILY ++ ["a.tar.gz"])
          (trace (snd (delete_if_older (retention_window Daily)
                         {| path := BACKUPS_DAILY ++ ["a.tar.gz"] |}
                         Scenario.mixed_daily)))
        <= 1)%nat.
Proof.
  assert (Hcount :
            stat_count (BACKUPS_DAILY ++ ["a.tar.gz"])
              (trace (snd (delete_if_older (retention_window Daily)
                             {| path := BACKUPS_DAILY ++ ["a.tar.gz"] |}
                             Scenario.mixed_daily)))
            = 2%nat) by (vm_compute; reflexivity).
  split; [vm_compute; reflexivity|]. split; [vm_compute; reflexivity|].
  split; [exact Hcount|]. rewrite Hcount. lia.
Qed.

(** The log line of the deletion pass is written after the decision is made,
    and calls [get_mtime()] again: a record that is removed has been read
    twice when it goes, a record that is kept once. *)
Remark delete_pass_log_reads_again :
  let evs := trace (snd (delete_pass Daily Scenario.mixed_daily)) in
  stat_count (BACKUPS_DAILY ++ ["a.tar.gz"]) evs = 2%nat
  /\ stat_count (BACKUPS_DAILY ++ ["b.tar.gz"]) evs = 1%nat.
Proof. vm_compute. split; reflexivity. Qed.


(** * Further properties *)

(** ** Relations kept by every step *)

Section Keeps.

Variable R : World -> World -> Prop.
Hypothesis R_refl : forall w, R w w.
Hypothesis R_trans : forall w1 w2 w3, R w1 w2 -> R w2 w3 -> R w1 w3.

Lemma keeps_ret {A} (a : A) : keeps R (ret a).
Proof. intros w. apply R_refl. Qed.

Lemma keeps_raise {A} (e : exn) : keeps R (raise (A := A) e).
Proof. intros w. apply R_refl. Qed.

Lemma keeps_bind {A B} (m : M A) (k : A -> M B) :
  keeps R m -> (forall a, keeps R (k a)) -> keeps R (bind m k).
Proof.
  intros Hm Hk w. unfold bind. specialize (Hm w).
  destruct (m w) as [[a|e] w1]; simpl in *; [|exact Hm].
  eapply R_trans; [exact Hm|apply Hk].
Qed.

Lemma keeps_py_all {A} (f : A -> M bool) (xs : list A) :
  (forall x, keeps R (f x)) -> keeps R (py_all f xs).
Proof.
  intros Hf. induction xs as [|x xs IH]; [apply keeps_ret|].
  cbn [py_all]. apply keeps_bind; [apply Hf|].
  intros [|]; [exact IH|apply keeps_ret].
Qed.

Lemma keeps_py_for {A} (xs : list A) (body : A -> M unit) :
  (forall x, keeps R (body x)) -> keeps R (py_for xs body).
Proof.
  intros Hbody. induction xs as [|x xs IH]; [apply keeps_ret|].
  cbn [py_for]. apply keeps_bind; [apply Hbody|]. intros _. exact IH.
Qed.

End Keeps.

Lemma later_refl (w : World) : later w w.
Proof. repeat split. exists []. by rewrite app_nil_r. Qed.

Lemma later_trans (w1 w2 w3 : World) : later w1 w2 -> later w2 w3 -> later w1 w3.
Proof.
  intros (Hc1 & Hs1 & evs1 & Ht1) (Hc2 & Hs2 & evs2 & Ht2).
  split; [congruence|]. split; [congruence|].
  exists (evs1 ++ evs2). by rewrite Ht2, Ht1, app_assoc.
Qed.

Lemma writes_app (evs1 evs2 : list event) :
  writes (evs1 ++ evs2) = writes evs1 ++ writes evs2.
Proof.
  induction evs1 as [|e evs1 IH]; [reflexivity|].
  destruct e; simpl; by rewrite ?IH.
Qed.

Lemma only_observed_refl (w : World) : only_observed w w.
Proof. repeat split. exists []. by rewrite app_nil_r. Qed.

Lemma only_observed_trans (w1 w2 w3 : World) :
  only_observed w1 w2 -> only_observed w2 w3 -> only_observed w1 w3.
Proof.
  intros (Hf1 & Hc1 & Hs1 & evs1 & Ht1 & Hw1) (Hf2 & Hc2 & Hs2 & evs2 & Ht2 & Hw2).
  split; [congruence|]. split; [congruence|]. split; [congruence|].
  exists (evs1 ++ evs2). split; [by rewrite Ht2, Ht1, app_assoc|].
  by rewrite writes_app, Hw1, Hw2.
Qed.

Lemma only_observed_later (w w' : World) : only_observed w w' -> later w w'.
Proof. intros (_ & Hc & Hs & evs & Ht & _). repeat split; eauto. Qed.

Lemma only_observed_event (e : event) (w : World) :
  writes [e] = [] -> only_observed w (emit e w).
Proof. intros He. repeat split. by exists [e]. Qed.

(** The steps that only look. *)

Lemma datetime_now_observes : keeps only_observed datetime_now.
Proof.
  intros w. unfold datetime_now. cbn [snd].
  eapply only_observed_trans; [|by apply only_observed_event].
  repeat split. exists []. by rewrite app_nil_r.
Qed.

Lemma datetime_sub_observes (dt delta : Z) : keeps only_observed (datetime_sub dt delta).
Proof.
  unfold datetime_sub. destruct (Datetime.sub_timedelta dt delta).
  - apply keeps_ret, only_observed_refl.
  - apply keeps_raise, only_observed_refl.
Qed.

Lemma stat_mtime_observes (p : Path) : keeps only_observed (stat_mtime p).
Proof.
  intros w. unfold stat_mtime.
  destruct (fs w !! p); by apply only_observed_event.
Qed.

Lemma glob_tar_gz_observes (root : Path) : keeps only_observed (glob_tar_gz root).
Proof. intros w. by apply only_observed_event. Qed.

Lemma logging_info_observes (fmt : string) (args : list logarg) :
  keeps only_observed (logging_info fmt args).
Proof. intros w. by apply only_observed_event. Qed.

Lemma is_older_than_delta_observes (self : BackupFile) (delta : Z) :
  keeps only_observed (is_older_than_delta self delta).
Proof.
  unfold is_older_than_delta, is_older_than_dt, get_mtime.
  apply keeps_bind; [apply only_observed_trans|apply datetime_now_observes|intros now].
  apply keeps_bind; [apply only_observed_trans|apply datetime_sub_observes|intros dt].
  apply keeps_bind; [apply only_observed_trans|apply stat_mtime_observes|intros mtime].
  apply keeps_ret, only_observed_refl.
Qed.

Lemma get_backup_files_observes (root_dir : Path) :
  keeps only_observed (get_backup_files root_dir).
Proof. intros w. rewrite get_backup_files_run. by apply only_observed_event. Qed.

Lemma needs_backup_observes (t : tier) : keeps only_observed (needs_backup t).
Proof.
  rewrite needs_backup_scan.
  apply keeps_bind; [apply only_observed_trans| |intros l].
  - apply get_backup_files_observes.
  - apply keeps_py_all; [apply only_observed_refl|apply only_observed_trans|].
    intros r. apply is_older_than_delta_observes.
Qed.

(** The steps that act keep the clock and the answers of the commands. *)

Lemma unlink_later (p : Path) : keeps later (unlink p).
Proof.
  intros w. unfold unlink.
  destruct (fs w !! p) as [[m|m rd]|]; repeat split; by exists [EvUnlink p].
Qed.

Lemma subprocess_run_later (argv : list string) : keeps later (subprocess_run argv).
Proof.
  intros w. unfold subprocess_run. cbn [fs trace spawn emit].
  destruct (spawn w argv (trace w) (fs w)) as [[returncode|] f'].
  - destruct (returncode =? 0); repeat split; by exists [EvRun argv].
  - repeat split; by exists [EvRun argv].
Qed.

Lemma observes_later {A} (m : M A) : keeps only_observed m -> keeps later m.
Proof. intros Hm w. apply only_observed_later, Hm. Qed.

(** ** The scanner's contract *)

Lemma reaches_spec (f : FS) (dir rel : Path) :
  Glob.reaches f dir rel = true
  <-> Forall (fun name => Glob.ishidden name = false) rel
      /\ forall q rest, rel = q ++ rest -> rest <> [] ->
                        Glob.listable f (dir ++ q) = true.
Proof.
  revert dir. induction rel as [|name rel IH]; intros dir.
  - split; [|done]. intros _. split; [constructor|].
    intros q rest Hq Hrest. symmetry in Hq. by apply app_eq_nil in Hq as [_ ->].
  - cbn [Glob.reaches]. rewrite !andb_true_iff, negb_true_iff, IH. split.
    + intros [[Hdir Hname] [Hall Hway]]. split; [by constructor|].
      intros [|c q] rest Hq Hrest.
      * by rewrite app_nil_r.
      * injection Hq as <- ->. specialize (Hway q rest eq_refl Hrest).
        by rewrite <- app_assoc in Hway.
    + intros [Hall Hway]. apply Forall_cons in Hall as [Hname Hall].
      split; [split; [|exact Hname]|split; [exact Hall|]].
      * specialize (Hway [] (name :: rel) eq_refl). rewrite app_nil_r in Hway.
        by apply Hway.
      * intros q rest -> Hrest. rewrite <- app_assoc. by apply (Hway (name :: q) rest).
Qed.

(** The scanner never fails and lists no path twice.  A path is listed exactly
    when it exists below [root_dir], its name ends in [.tar.gz], none of its
    components below [root_dir] starts with a dot, and every directory from
    [root_dir] down to its parent can be listed: the scan is recursive. *)
Theorem get_backup_files_contract (root_dir : Path) (w : World) :
  exists l,
    get_backup_files root_dir w = (Ok l, emit (EvGlob root_dir) w)
    /\ NoDup (path <$> l)
    /\ forall r,
        r ∈ l <->
        exists rel stem,
          path r = root_dir ++ rel
          /\ last rel = Some (stem +:+ ".tar.gz")
          /\ is_Some (fs w !! path r)
          /\ Forall (fun name => Glob.ishidden name = false) rel
          /\ forall q rest, rel = q ++ rest -> rest <> [] ->
                            Glob.listable (fs w) (root_dir ++ q) = true.
Proof.
  exists (records (fs w) root_dir). split; [apply get_backup_files_run|].
  split; [apply records_NoDup|]. intros [p]. unfold records. cbn [path]. split.
  - intros [q [[= ->] [rel [-> Hin]]%list_elem_of_fmap]]%list_elem_of_fmap.
    apply glob_elem in Hin as [Hex Hm]. unfold Glob.matches in Hm.
    destruct (last rel) as [name|] eqn:Hlast; [|discriminate].
    apply andb_true_iff in Hm as [Hname Hreach].
    apply ends_with_suffix in Hname as [stem ->].
    apply reaches_spec in Hreach as [Hall Hway]. by exists rel, stem.
  - intros (rel & stem & -> & Hlast & Hex & Hall & Hway).
    apply list_elem_of_fmap. exists (root_dir ++ rel). split; [reflexivity|].
    apply list_elem_of_fmap_2, glob_elem. split; [exact Hex|].
    unfold Glob.matches. rewrite Hlast. apply andb_true_iff. split.
    + apply ends_with_suffix. by exists stem.
    + by apply reaches_spec.
Qed.

Lemma get_backup_files_contract_witness :
  exists l,
    get_backup_files BACKUPS_DAILY Scenario.mixed_daily
    = (Ok l, emit (EvGlob BACKUPS_DAILY) Scenario.mixed_daily)
    /\ NoDup (path <$> l)
    /\ forall r,
        r ∈ l <->
        exists rel stem,
          path r = BACKUPS_DAILY ++ rel
          /\ last rel = Some (stem +:+ ".tar.gz")
          /\ is_Some (fs Scenario.mixed_daily !! path r)
          /\ Forall (fun name => Glob.ishidden name = false) rel
          /\ forall q rest, rel = q ++ rest -> rest <> [] ->
                            Glob.listable (fs Scenario.mixed_daily) (BACKUPS_DAILY ++ q)
                            = true.
Proof. apply (get_backup_files_contract BACKUPS_DAILY Scenario.mixed_daily). Defined.

(** ** Is a backup due? (continued) *)

(** Deciding whether a backup is due only looks: whatever the answer, and also
    when the check ends in an exception, the disk is as it was, no command was
    run and no file was removed. *)
Theorem needs_backup_only_observes (t : tier) (w : World) :
  let w' := snd (needs_backup t w) in
  fs w' = fs w
  /\ exists evs, trace w' = trace w ++ evs /\ writes evs = [].
Proof.
  destruct (needs_backup_observes t w) as (Hfs & _ & _ & Hevs). by split.
Qed.

Lemma mtime_before_mono (f : FS) (dt1 dt2 : Z) (r : BackupFile) :
  dt1 <= dt2 -> mtime_before f dt1 r = true -> mtime_before f dt2 r = true.
Proof.
  unfold mtime_before. destruct (f !! path r); [|done].
  rewrite !Z.ltb_lt. lia.
Qed.

(** A backup that is due stays due as time passes, as long as the archives on
    disk are the same. *)
Theorem needs_backup_stays_due (t : tier) (w1 w2 : World) (now1 now2 : Z) :
  frozen_at now1 w1 -> frozen_at now2 w2 -> fs w1 = fs w2 ->
  tolerance_adjusted_cadence t <= now1 ->
  now1 <= now2 <= Datetime.DATETIME_MAX ->
  fst (needs_backup t w1) = Ok true ->
  fst (needs_backup t w2) = Ok true.
Proof.
  intros Hc1 Hc2 Hfs Hlo [Hle Hhi] Hdue.
  destruct (needs_backup_run t w1 now1 Hc1) as [w1' [Hrun1 _]]; [lia|].
  destruct (needs_backup_run t w2 now2 Hc2) as [w2' [Hrun2 _]]; [lia|].
  rewrite Hrun1 in Hdue. rewrite Hrun2. cbn [fst] in *. f_equal.
  injection Hdue as Hdue. rewrite <- Hfs.
  rewrite forallb_forall in *. intros r Hr.
  eapply mtime_before_mono; [|by apply Hdue]. lia.
Qed.

Lemma needs_backup_stays_due_witness :
  fst (needs_backup Daily Scenario.mixed_daily_next_day) = Ok true.
Proof.
  apply (needs_backup_stays_due Daily Scenario.mixed_daily Scenario.mixed_daily_next_day
           Scenario.noon (Scenario.noon + Datetime.US_PER_DAY)).
  - intros n. reflexivity.
  - intros n. reflexivity.
  - reflexivity.
  - vm_compute. discriminate.
  - vm_compute. split; discriminate.
  - vm_compute. reflexivity.
Defined.

(** ** The comparison, at its edges *)

(** A record whose file is gone makes the comparison raise
    [FileNotFoundError]: there is no answer for a missing archive. *)
Theorem is_older_than_delta_missing_file (self : BackupFile) (delta : Z) (w : World) :
  Z.abs delta <= clock w (ticks w) <= Datetime.DATETIME_MAX ->
  fs w !! path self = None ->
  fst (is_older_than_delta self delta w) = Raise FileNotFoundError.
Proof.
  intros Hrange Hmissing. rewrite is_older_than_delta_run. cbv zeta.
  rewrite sub_timedelta_in_range by (try apply Z.abs_nonneg; lia).
  by rewrite Hmissing.
Qed.

Lemma is_older_than_delta_missing_file_witness :
  fst (is_older_than_delta {| path := BACKUPS_MONTHLY ++ ["gone.tar.gz"] |}
         (Datetime.timedelta 0 60 0 0 0) Scenario.bare)
  = Raise FileNotFoundError.
Proof.
  apply is_older_than_delta_missing_file.
  - vm_compute. split; discriminate.
  - vm_compute. reflexivity.
Defined.

(** A duration that reaches back before [datetime.min] makes the comparison
    raise [OverflowError], whatever its sign, and the file is not looked at. *)
Theorem is_older_than_delta_overflow (self : BackupFile) (delta : Z) (w : World) :
  clock w (ticks w) < Z.abs delta ->
  fst (is_older_than_delta self delta w) = Raise OverflowError
  /\ stat_count (path self) (trace (snd (is_older_than_delta self delta w)))
     = stat_count (path self) (trace w).
Proof.
  intros Hbefore. rewrite is_older_than_delta_run. cbv zeta.
  unfold Datetime.sub_timedelta, Datetime.in_range, Datetime.DATETIME_MIN.
  destruct (Z.leb_spec 0 (clock w (ticks w) - Z.abs delta)) as [Hle|_]; [lia|].
  cbn [andb fst snd trace emit tick]. split; [reflexivity|].
  rewrite stat_count_app. cbn [stat_count]. lia.
Qed.

Lemma is_older_than_delta_overflow_witness :
  let self := {| path := BACKUPS_DAILY ++ ["a.tar.gz"] |} in
  let delta := Datetime.timedelta 0 (- 999999999) 0 0 0 in
  fst (is_older_than_delta self delta Scenario.mixed_daily) = Raise OverflowError
  /\ stat_count (path self) (trace (snd (is_older_than_delta self delta Scenario.mixed_daily)))
     = stat_count (path self) (trace Scenario.mixed_daily).
Proof.
  apply is_older_than_delta_overflow. vm_compute. reflexivity.
Defined.

(** An archive older than a duration is older than every shorter one, the
    signs of the durations put aside. *)
Theorem is_older_than_delta_shorter (self : BackupFile) (delta delta' : Z) (w : World) :
  clock w (ticks w) <= Datetime.DATETIME_MAX ->
  Z.abs delta' <= Z.abs delta ->
  fst (is_older_than_delta self delta w) = Ok true ->
  fst (is_older_than_delta self delta' w) = Ok true.
Proof.
  intros Hmax Hshorter. rewrite !is_older_than_delta_run. cbv zeta.
  destruct (Datetime.sub_timedelta _ (Z.abs delta)) as [dt|] eqn:Hsub; [|discriminate].
  pose proof (sub_timedelta_Some _ _ _ Hsub) as ->.
  unfold Datetime.sub_timedelta, Datetime.in_range, Datetime.DATETIME_MIN in Hsub.
  destruct (Z.leb_spec 0 (clock w (ticks w) - Z.abs delta)) as [Hle|_]; [|discriminate].
  rewrite sub_timedelta_in_range by (try apply Z.abs_nonneg; lia).
  destruct (fs w !! path self) as [i|]; [|discriminate].
  cbn [fst]. intros [= Hold]. f_equal. apply Z.ltb_lt. apply Z.ltb_lt in Hold. lia.
Qed.

Lemma is_older_than_delta_shorter_witness :
  fst (is_older_than_delta {| path := BACKUPS_DAILY ++ ["a.tar.gz"] |}
         (Datetime.timedelta 0 1 0 (-30) 0) Scenario.mixed_daily)
  = Ok true.
Proof.
  apply (is_older_than_delta_shorter _ (Datetime.timedelta 0 (-4) 0 0 0)).
  - vm_compute. discriminate.
  - vm_compute. discriminate.
  - vm_compute. reflexivity.
Defined.

(** ** Creating a backup (continued) *)

(** Read the outcome of the next command off a hypothesis [H] about [spawn]. *)
Ltac next_command H :=
  match goal with
  | |- context [spawn ?w ?argv ?h ?f] =>
      let o := fresh "o" in
      let f' := fresh "f" in
      let E := fresh "E" in
      pose proof (H h f) as E;
      destruct (spawn w argv h f) as [o f'];
      cbn [fst] in E; subst o;
      cbn [Z.eqb fs trace spawn clock ticks emit tick set_fs]
  end.

Ltac unfold_create_backup :=
  unfold create_backup, stop_minecraft_server, start_minecraft_server,
    get_new_backup_filename, bind, logging_info, subprocess_run, datetime_now, ret;
  cbn [fs trace spawn clock ticks emit tick set_fs].

(** When the three commands succeed, [create_backup] has stopped the server,
    then run [tar] on the path it returns, then started the server: these
    three commands, in this order, and no other. *)
Theorem create_backup_success (parent_dir : Path) (w : World) :
  (forall history f, fst (spawn w STOP_COMMAND history f) = Exited 0) ->
  (forall history f,
      fst (spawn w (tar_command (new_backup_path parent_dir w)) history f) = Exited 0) ->
  (forall history f, fst (spawn w START_COMMAND history f) = Exited 0) ->
  exists w' evs,
    create_backup parent_dir w = (Ok {| path := new_backup_path parent_dir w |}, w')
    /\ trace w' = trace w ++ evs
    /\ writes evs = [ EvRun STOP_COMMAND;
                      EvRun (tar_command (new_backup_path parent_dir w));
                      EvRun START_COMMAND ].
Proof.
  intros Hstop Htar Hstart. unfold_create_backup.
  next_command Hstop. fold (new_backup_path parent_dir w).
  next_command Htar. next_command Hstart.
  eexists _, _. split; [reflexivity|].
  cbn [trace set_fs emit tick]. rewrite <- !app_assoc. split; reflexivity.
Qed.

Lemma create_backup_success_witness :
  exists w' evs,
    create_backup BACKUPS_WEEKLY Scenario.bare
    = (Ok {| path := new_backup_path BACKUPS_WEEKLY Scenario.bare |}, w')
    /\ trace w' = trace Scenario.bare ++ evs
    /\ writes evs = [ EvRun STOP_COMMAND;
                      EvRun (tar_command (new_backup_path BACKUPS_WEEKLY Scenario.bare));
                      EvRun START_COMMAND ].
Proof.
  apply (create_backup_success BACKUPS_WEEKLY Scenario.bare);
    intros history f; reflexivity.
Defined.

(** When the archive has been written but the server does not start again,
    [create_backup] raises the error of the start command: its caller gets no
    [BackupFile] although [tar] has succeeded. *)
Theorem create_backup_start_failure (parent_dir : Path) (w : World) :
  (forall history f, fst (spawn w STOP_COMMAND history f) = Exited 0) ->
  (forall history f,
      fst (spawn w (tar_command (new_backup_path parent_dir w)) history f) = Exited 0) ->
  (forall history f, fst (spawn w START_COMMAND history f) <> Exited 0) ->
  exists e w' evs,
    create_backup parent_dir w = (Raise e, w')
    /\ (e = FileNotFoundError
        \/ exists returncode, returncode <> 0
                              /\ e = CalledProcessError returncode START_COMMAND)
    /\ trace w' = trace w ++ evs
    /\ writes evs = [ EvRun STOP_COMMAND;
                      EvRun (tar_command (new_backup_path parent_dir w));
                      EvRun START_COMMAND ].
Proof.
  intros Hstop Htar Hstart. unfold_create_backup.
  next_command Hstop. fold (new_backup_path parent_dir w).
  next_command Htar.
  match goal with
  | |- context [spawn w START_COMMAND ?h ?f] =>
      pose proof (Hstart h f) as Hs; destruct (spawn w START_COMMAND h f) as [[c|] f']
  end.
  - cbn [fst] in Hs. destruct (Z.eqb_spec c 0) as [->|Hc]; [done|].
    eexists _, _, _. split; [reflexivity|]. split; [right; eauto|].
    cbn [trace set_fs emit tick]. rewrite <- !app_assoc. split; reflexivity.
  - eexists _, _, _. split; [reflexivity|]. split; [by left|].
    cbn [trace set_fs emit tick]. rewrite <- !app_assoc. split; reflexivity.
Qed.

Lemma create_backup_start_failure_witness :
  exists e w' evs,
    create_backup BACKUPS_DAILY Scenario.bare_start_fails = (Raise e, w')
    /\ (e = FileNotFoundError
        \/ exists returncode, returncode <> 0
                              /\ e = CalledProcessError returncode START_COMMAND)
    /\ trace w' = trace Scenario.bare_start_fails ++ evs
    /\ writes evs = [ EvRun STOP_COMMAND;
                      EvRun (tar_command
                               (new_backup_path BACKUPS_DAILY Scenario.bare_start_fails));
                      EvRun START_COMMAND ].
Proof.
  apply (create_backup_start_failure BACKUPS_DAILY Scenario.bare_start_fails).
  - intros history f. reflexivity.
  - intros history f. reflexivity.
  - intros history f. vm_compute. discriminate.
Defined.

(** ** The name of a new archive *)

Lemma string_app_assoc (s1 s2 s3 : string) :
  (s1 +:+ s2) +:+ s3 = s1 +:+ (s2 +:+ s3).
Proof.
  induction s1 as [|c s1 IH]; [reflexivity|].
  change (String c ((s1 +:+ s2) +:+ s3) = String c (s1 +:+ (s2 +:+ s3))).
  f_equal. exact IH.
Qed.

Lemma string_app_length (s1 s2 : string) :
  String.length (s1 +:+ s2) = (String.length s1 + String.length s2)%nat.
Proof.
  induction s1 as [|c s1 IH]; [reflexivity|].
  change (S (String.length (s1 +:+ s2)) = S (String.length s1 + String.length s2)).
  f_equal. exact IH.
Qed.

Lemma all_digits_app (s1 s2 : string) :
  all_digits (s1 +:+ s2) = all_digits s1 && all_digits s2.
Proof.
  induction s1 as [|c s1 IH]; [reflexivity|].
  change (is_digit c && all_digits (s1 +:+ s2)
          = is_digit c && all_digits s1 && all_digits s2).
  rewrite <- andb_assoc. f_equal. exact IH.
Qed.

Lemma digit_is_digit (n : Z) : is_digit (Datetime.digit n) = true.
Proof.
  unfold is_digit, Datetime.digit.
  pose proof (Z.mod_pos_bound n 10 ltac:(lia)) as Hmod.
  rewrite nat_ascii_embedding by lia.
  apply andb_true_iff. split; apply Nat.leb_le; lia.
Qed.

Lemma zero_padded_length (width : nat) (n : Z) :
  String.length (Datetime.zero_padded width n) = width.
Proof.
  revert n. induction width as [|width IH]; intros n; [reflexivity|].
  cbn [Datetime.zero_padded]. rewrite string_app_length, IH.
  cbn [String.length]. lia.
Qed.

Lemma zero_padded_digits (width : nat) (n : Z) :
  all_digits (Datetime.zero_padded width n) = true.
Proof.
  revert n. induction width as [|width IH]; intros n; [reflexivity|].
  cbn [Datetime.zero_padded]. rewrite all_digits_app, IH.
  cbn [all_digits andb]. by rewrite digit_is_digit.
Qed.

(** The name of a new archive is [backup-], eight digits, a dash, six digits
    and [.tar.gz]: twenty-nine characters, for every reading of the clock from
    the year 1000 on. *)
Theorem get_new_backup_filename_shape (w : World) :
  Datetime.datetime 1000 1 1 0 0 0 <= clock w (ticks w) <= Datetime.DATETIME_MAX ->
  exists date time,
    fst (get_new_backup_filename w)
    = Ok ("backup-" +:+ date +:+ "-" +:+ time +:+ ".tar.gz")
    /\ String.length date = 8%nat /\ all_digits date = true
    /\ String.length time = 6%nat /\ all_digits time = true.
Proof.
  intros _. set (t := clock w (ticks w)).
  exists (Datetime.zero_padded 4 (Datetime.year_of t)
          +:+ Datetime.zero_padded 2 (Datetime.month_of t)
          +:+ Datetime.zero_padded 2 (Datetime.day_of t)),
         (Datetime.zero_padded 2 (Datetime.hour_of t)
          +:+ Datetime.zero_padded 2 (Datetime.minute_of t)
          +:+ Datetime.zero_padded 2 (Datetime.second_of t)).
  split; [|split; [|split; [|split]]].
  - rewrite get_new_backup_filename_run. cbv zeta. cbn [fst]. fold t.
    by rewrite !string_app_assoc.
  - by rewrite !string_app_length, !zero_padded_length.
  - by rewrite !all_digits_app, !zero_padded_digits.
  - by rewrite !string_app_length, !zero_padded_length.
  - by rewrite !all_digits_app, !zero_padded_digits.
Qed.

Lemma get_new_backup_filename_shape_witness :
  exists date time,
    fst (get_new_backup_filename Scenario.bare)
    = Ok ("backup-" +:+ date +:+ "-" +:+ time +:+ ".tar.gz")
    /\ String.length date = 8%nat /\ all_digits date = true
    /\ String.length time = 6%nat /\ all_digits time = true.
Proof.
  apply (get_new_backup_filename_shape Scenario.bare).
  vm_compute. split; discriminate.
Defined.






(** ** The deletion passes, one after the other *)

Lemma frozen_later (now : Z) (w w' : World) :
  frozen_at now w -> later w w' -> frozen_at now w'.
Proof. intros Hclock (Hc & _) n. by rewrite Hc. Qed.

Lemma delete_if_older_later (delta : Z) (backup_file : BackupFile) :
  keeps later (delete_if_older delta backup_file).
Proof.
  unfold delete_if_older.
  apply keeps_bind; [apply later_trans| |intros [|]].
  - apply observes_later, is_older_than_delta_observes.
  - apply keeps_bind; [apply later_trans| |intros mtime].
    + apply observes_later, stat_mtime_observes.
    + apply keeps_bind; [apply later_trans| |intros _].
      * apply observes_later, logging_info_observes.
      * apply unlink_later.
  - apply keeps_ret, later_refl.
Qed.

Lemma delete_backups_later (parent_dir : Path) (delta : Z) :
  keeps later (delete_backups_older_than_delta parent_dir delta).
Proof.
  unfold delete_backups_older_than_delta.
  apply keeps_bind; [apply later_trans| |intros l].
  - apply observes_later, get_backup_files_observes.
  - apply keeps_py_for; [apply later_refl|apply later_trans|].
    intros r. apply delete_if_older_later.
Qed.

Lemma removed_only_refl (P : Path -> Z -> Prop) (f : FS) : removed_only P f f.
Proof. intros p. by left. Qed.

Lemma removed_only_trans (P : Path -> Z -> Prop) (f1 f2 f3 : FS) :
  removed_only P f1 f2 -> removed_only P f2 f3 -> removed_only P f1 f3.
Proof.
  intros H12 H23 p. destruct (H12 p) as [Heq|[Hnone Hwas]].
  - destruct (H23 p) as [Heq'|[Hnone' Hwas']].
    + left. congruence.
    + right. split; [exact Hnone'|]. by rewrite <- Heq.
  - right. split; [|exact Hwas].
    destruct (H23 p) as [Heq'|[Hnone' _]]; congruence.
Qed.

(** What one pass does to the disk, in the terms of [removed_only]. *)
Lemma delete_pass_removed_only (t : tier) (w : World) (now : Z) :
  frozen_at now w ->
  removed_only (expired_archive now) (fs w) (fs (snd (delete_pass t w))).
Proof.
  intros Hclock p. destruct (delete_pass t w) as [res w'] eqn:Hrun. cbn [snd].
  pose proof (delete_backups_frame _ _ now w p _ _ Hclock Hrun) as Hframe.
  rewrite retention_window_days, Z.abs_eq in Hframe by apply retention_days_pos.
  destruct Hframe as [Heq|[Hnone [[r [Hr Hp]] [m [Hm Hold]]]]]; [by left|].
  right. split; [exact Hnone|]. exists m. split; [exact Hm|].
  unfold records in Hr.
  apply list_elem_of_fmap in Hr as [q [-> [rel [-> Hin]]%list_elem_of_fmap]].
  destruct (glob_pattern _ _ _ Hin) as [name [Hlast Hmatch]].
  apply ends_with_suffix in Hmatch as [stem ->].
  exists t, rel, stem. by rewrite <- Hp.
Qed.

(** [delete_old_backups], however it ends, has changed nothing on the disk
    but archives that are gone: regular files below one of the three tier
    directories, named [*.tar.gz], older than the retention window of their
    tier. *)
Theorem delete_old_backups_frame (w : World) (now : Z) :
  frozen_at now w ->
  removed_only (expired_archive now) (fs w) (fs (snd (delete_old_backups w))).
Proof.
  set (R := fun w1 w2 : World =>
              frozen_at now w1 ->
              frozen_at now w2 /\ removed_only (expired_archive now) (fs w1) (fs w2)).
  assert (Htrans : forall w1 w2 w3, R w1 w2 -> R w2 w3 -> R w1 w3).
  { intros w1 w2 w3 H12 H23 Hc1. destruct (H12 Hc1) as [Hc2 Hr12].
    destruct (H23 Hc2) as [Hc3 Hr23]. split; [exact Hc3|].
    by eapply removed_only_trans. }
  assert (Hpass : forall t, keeps R (delete_pass t)).
  { intros t w0 Hc0. split.
    - eapply frozen_later; [exact Hc0|]. apply delete_backups_later.
    - by apply delete_pass_removed_only. }
  intros Hclock. rewrite delete_old_backups_passes.
  refine (proj2 (keeps_bind R Htrans _ _ (Hpass Daily) _ w Hclock)).
  intros _. apply keeps_bind; [exact Htrans|apply Hpass|intros _; apply Hpass].
Qed.

Lemma delete_old_backups_frame_witness :
  removed_only (expired_archive Scenario.noon) (fs Scenario.directory_in_daily)
    (fs (snd (delete_old_backups Scenario.directory_in_daily))).
Proof.
  apply (delete_old_backups_frame Scenario.directory_in_daily Scenario.noon).
  intros n. reflexivity.
Defined.

(** ** A directory among the archives *)

(** When one of the records is a directory older than the threshold, the loop
    ends in [IsADirectoryError], raised for a directory. *)
Lemma py_for_old_directory (delta now : Z) (l : list BackupFile) (w : World) :
  frozen_at now w ->
  Z.abs delta <= now <= Datetime.DATETIME_MAX ->
  NoDup (path <$> l) ->
  (forall r, r ∈ l -> is_Some (fs w !! path r)) ->
  (exists r m readable,
      r ∈ l /\ fs w !! path r = Some (Dir m readable) /\ m < now - Z.abs delta) ->
  exists p w',
    py_for l (delete_if_older delta) w = (Raise (IsADirectoryError p), w')
    /\ exists m readable, fs w !! p = Some (Dir m readable).
Proof.
  intros Hclock Hrange. revert w Hclock.
  induction l as [|r0 l IH]; intros w Hclock Hnd Hex (r & m & rd & Hr & Hdir & Hold).
  { by apply elem_of_nil in Hr. }
  rewrite fmap_cons in Hnd. apply NoDup_cons in Hnd as [Hfresh Hnd].
  assert (Hother : forall r', r' ∈ l -> path r' <> path r0).
  { intros r' Hr' Heq. apply Hfresh. rewrite <- Heq. by apply list_elem_of_fmap_2. }
  cbn [py_for]. unfold bind at 1. rewrite delete_if_older_run. cbv zeta.
  rewrite Hclock, sub_timedelta_in_range by (try apply Z.abs_nonneg; lia).
  destruct (Hex r0) as [i0 Hi0]; [left|]. rewrite Hi0.
  destruct (Z.ltb_spec (inode_mtime i0) (now - Z.abs delta)) as [Hlt|Hge].
  - destruct i0 as [m0|m0 rd0].
    + assert (Hin : r ∈ l).
      { apply elem_of_cons in Hr as [->|Hr]; [congruence|exact Hr]. }
      match goal with |- context [py_for l _ ?x] => set (w1 := x) end.
      destruct (IH w1) as (p & w' & Hrun & m' & rd' & Hp).
      * exact Hclock.
      * exact Hnd.
      * intros r' Hr'. cbn [fs w1 set_fs]. rewrite lookup_delete_ne.
        -- apply Hex. by right.
        -- intros Heq. by apply (Hother r' Hr').
      * exists r, m, rd. split; [exact Hin|]. split; [|exact Hold].
        cbn [fs w1 set_fs]. rewrite lookup_delete_ne; [exact Hdir|].
        intros Heq. by apply (Hother r Hin).
      * exists p, w'. split; [exact Hrun|]. exists m', rd'.
        cbn [fs w1 set_fs] in Hp. destruct (decide (path r0 = p)) as [<-|Hne].
        -- by rewrite lookup_delete_eq in Hp.
        -- by rewrite lookup_delete_ne in Hp.
    + eexists _, _. split; [reflexivity|]. eauto.
  - assert (Hin : r ∈ l).
    { apply elem_of_cons in Hr as [->|Hr]; [|exact Hr].
      rewrite Hi0 in Hdir. injection Hdir as ->. simpl in Hge. lia. }
    match goal with |- context [py_for l _ ?x] => set (w1 := x) end.
    destruct (IH w1) as (p & w' & Hrun & Hp).
    + exact Hclock.
    + exact Hnd.
    + intros r' Hr'. apply Hex. by right.
    + by exists r, m, rd.
    + by exists p, w'.
Qed.

Lemma tier_dir_apart (t : tier) (rel rel' : Path) :
  t <> Daily -> tier_dir t ++ rel <> BACKUPS_DAILY ++ rel'.
Proof. destruct t; [done|discriminate|discriminate]. Qed.

(** A directory older than four days whose name ends in [.tar.gz], among the
    daily archives, makes [delete_old_backups] end in [IsADirectoryError]
    during the daily pass: the weekly and the monthly archives are then as
    they were, old ones included. *)
Theorem delete_old_backups_stops_at_directory (w : World) (now : Z) :
  frozen_at now w ->
  4 * Datetime.US_PER_DAY <= now <= Datetime.DATETIME_MAX ->
  (exists r m readable,
      r ∈ records (fs w) BACKUPS_DAILY
      /\ fs w !! path r = Some (Dir m readable)
      /\ m < now - 4 * Datetime.US_PER_DAY) ->
  exists p w',
    delete_old_backups w = (Raise (IsADirectoryError p), w')
    /\ (exists m readable, fs w !! p = Some (Dir m readable))
    /\ forall t rel, t <> Daily ->
                     fs w' !! (tier_dir t ++ rel) = fs w !! (tier_dir t ++ rel).
Proof.
  intros Hclock Hrange Hdir.
  assert (Habs : Z.abs (retention_window Daily) = 4 * Datetime.US_PER_DAY) by reflexivity.
  destruct (py_for_old_directory (retention_window Daily) now
              (records (fs w) BACKUPS_DAILY) (emit (EvGlob BACKUPS_DAILY) w))
    as (p & w' & Hrun & Hp).
  - exact Hclock.
  - by rewrite Habs.
  - apply records_NoDup.
  - intros r Hr. by apply records_exist in Hr.
  - by rewrite Habs.
  - assert (Hpass : delete_pass Daily w = (Raise (IsADirectoryError p), w')).
    { unfold delete_pass, delete_backups_older_than_delta, bind.
      by rewrite get_backup_files_run. }
    exists p, w'. split; [|split; [exact Hp|]].
    + rewrite delete_old_backups_passes. unfold bind at 1. by rewrite Hpass.
    + intros t rel Ht.
      destruct (delete_backups_frame _ _ now w (tier_dir t ++ rel) _ _ Hclock Hpass)
        as [Heq|[_ [[r [Hr Hpath]] _]]]; [exact Heq|].
      unfold records in Hr.
      apply list_elem_of_fmap in Hr as [q [-> [rel' [-> _]]%list_elem_of_fmap]].
      cbn [path tier_dir] in Hpath. symmetry in Hpath.
      by apply tier_dir_apart in Hpath.
Qed.

Lemma delete_old_backups_stops_at_directory_witness :
  exists p w',
    delete_old_backups Scenario.directory_in_daily = (Raise (IsADirectoryError p), w')
    /\ (exists m readable, fs Scenario.directory_in_daily !! p = Some (Dir m readable))
    /\ forall t rel, t <> Daily ->
                     fs w' !! (tier_dir t ++ rel)
                     = fs Scenario.directory_in_daily !! (tier_dir t ++ rel).
Proof.
  apply (delete_old_backups_stops_at_directory Scenario.directory_in_daily Scenario.noon).
  - intros n. reflexivity.
  - vm_compute. split; discriminate.
  - exists {| path := BACKUPS_DAILY ++ ["unpacked.tar.gz"] |},
           (Scenario.noon - Datetime.timedelta 0 5 0 0 0), true.
    split; [|split].
    + assert (Hrecords :
                records (fs Scenario.directory_in_daily) BACKUPS_DAILY
                = (fun p => {| path := BACKUPS_DAILY ++ p |})
                    <$> [["unpacked.tar.gz"]; ["a.tar.gz"]])
        by (vm_compute; reflexivity).
      rewrite Hrecords. apply list_elem_of_In. cbn [fmap list_fmap In]. auto.
    + vm_compute. reflexivity.
    + vm_compute. reflexivity.
Defined.

(** ** Scanning after a deletion *)

Section AfterRemoval.

Variables (P : Path -> Z -> Prop) (f f' : FS).
Hypothesis removed : removed_only P f f'.

Lemma listable_after_removal (d : Path) : Glob.listable f' d = Glob.listable f d.
Proof.
  unfold Glob.listable. destruct (removed d) as [->|[-> [m [-> _]]]]; reflexivity.
Qed.

Lemma reaches_after_removal (dir rel : Path) :
  Glob.reaches f' dir rel = Glob.reaches f dir rel.
Proof.
  revert dir. induction rel as [|name rel IH]; intros dir; [reflexivity|].
  cbn [Glob.reaches]. by rewrite listable_after_removal, IH.
Qed.

(** The records found after the removal are the records found before whose
    file is still there. *)
Lemma records_after_removal (root_dir : Path) (r : BackupFile) :
  r ∈ records f' root_dir <-> r ∈ records f root_dir /\ f' !! path r = f !! path r.
Proof.
  destruct r as [p]. unfold records. cbn [path].
  rewrite !list_elem_of_fmap. split.
  - intros [q [[= ->] [rel [-> Hin]]%list_elem_of_fmap]].
    apply glob_elem in Hin as [[i Hi] Hm].
    assert (Hsame : f' !! (root_dir ++ rel) = f !! (root_dir ++ rel)).
    { destruct (removed (root_dir ++ rel)) as [Heq|[Hnone _]]; [exact Heq|].
      discriminate (eq_trans (eq_sym Hi) Hnone). }
    split; [|exact Hsame]. exists (root_dir ++ rel). split; [reflexivity|].
    apply list_elem_of_fmap_2, glob_elem. split.
    + exists i. exact (eq_trans (eq_sym Hsame) Hi).
    + unfold Glob.matches in *. by rewrite reaches_after_removal in Hm.
  - intros [[q [[= ->] [rel [-> Hin]]%list_elem_of_fmap]] Hsame].
    apply glob_elem in Hin as [[i Hi] Hm].
    exists (root_dir ++ rel). split; [reflexivity|].
    apply list_elem_of_fmap_2, glob_elem. split.
    + exists i. exact (eq_trans Hsame Hi).
    + unfold Glob.matches in *. by rewrite reaches_after_removal.
Qed.

End AfterRemoval.

(** What a pass that runs to its end has done: the records that were older
    are gone, and nothing else has changed. *)
Lemma delete_pass_total (t : tier) (w : World) (now : Z) :
  frozen_at now w ->
  retention_days t * Datetime.US_PER_DAY <= now <= Datetime.DATETIME_MAX ->
  (forall r, r ∈ records (fs w) (tier_dir t) ->
             older_than (fs w) now (retention_days t * Datetime.US_PER_DAY) r ->
             is_regular_file (fs w) r) ->
  exists w',
    delete_pass t w = (Ok tt, w')
    /\ frozen_at now w'
    /\ removed_only (fun p m => m < now - retention_days t * Datetime.US_PER_DAY)
                    (fs w) (fs w')
    /\ forall r, r ∈ records (fs w) (tier_dir t) ->
                 older_than (fs w) now (retention_days t * Datetime.US_PER_DAY) r ->
                 fs w' !! path r = None.
Proof.
  intros Hclock Hrange Hfiles.
  pose proof (retention_days_pos t) as Hpos.
  assert (Habs : Z.abs (retention_window t) = retention_days t * Datetime.US_PER_DAY).
  { rewrite retention_window_days. by apply Z.abs_eq. }
  destruct (py_for_delete_total (retention_window t) now
              ltac:(by rewrite Habs) (records (fs w) (tier_dir t))
              (emit (EvGlob (tier_dir t)) w)) as [w' [Hrun Hgone]].
  - exact Hclock.
  - apply records_NoDup.
  - intros r Hr. by apply records_exist in Hr.
  - intros r Hr Hold. apply Hfiles; [exact Hr|].
    apply mtime_before_older_than. by rewrite <- Habs.
  - assert (Hpass : delete_pass t w = (Ok tt, w')).
    { unfold delete_pass, delete_backups_older_than_delta, bind.
      by rewrite get_backup_files_run. }
    exists w'. split; [exact Hpass|]. split; [|split].
    + eapply frozen_later; [exact Hclock|].
      pose proof (delete_backups_later (tier_dir t) (retention_window t) w) as Hl.
      fold (delete_pass t) in Hl. by rewrite Hpass in Hl.
    + intros p.
      destruct (delete_backups_frame _ _ now w p _ _ Hclock Hpass)
        as [Heq|[Hnone [_ Hold]]]; [by left|].
      right. split; [exact Hnone|]. by rewrite Habs in Hold.
    + intros r Hr Hold. apply Hgone; [exact Hr|]. rewrite Habs.
      by apply mtime_before_older_than.
Qed.

(** Running the deletion pass of a tier a second time removes nothing: what
    the first pass has left is younger than the retention window. *)
Theorem delete_pass_idempotent (t : tier) (w : World) (now : Z) :
  frozen_at now w ->
  retention_days t * Datetime.US_PER_DAY <= now <= Datetime.DATETIME_MAX ->
  (forall r, r ∈ records (fs w) (tier_dir t) ->
             older_than (fs w) now (retention_days t * Datetime.US_PER_DAY) r ->
             is_regular_file (fs w) r) ->
  exists w1 w2,
    delete_pass t w = (Ok tt, w1)
    /\ delete_pass t w1 = (Ok tt, w2)
    /\ fs w2 = fs w1.
Proof.
  intros Hclock Hrange Hfiles.
  destruct (delete_pass_total t w now Hclock Hrange Hfiles)
    as (w1 & Hrun1 & Hclock1 & Hremoved & Hgone).
  assert (Hyoung : forall r, r ∈ records (fs w1) (tier_dir t) ->
                     ~ older_than (fs w1) now (retention_days t * Datetime.US_PER_DAY) r).
  { intros r Hr Hold.
    apply (records_after_removal _ _ _ Hremoved) in Hr as [Hr Hsame].
    assert (Hnone : fs w1 !! path r = None).
    { apply Hgone; [exact Hr|]. unfold older_than, last_modified_time in *.
      by rewrite <- Hsame. }
    destruct Hold as [m [Hm _]]. unfold last_modified_time in Hm.
    by rewrite Hnone in Hm. }
  destruct (delete_pass_total t w1 now Hclock1 Hrange)
    as (w2 & Hrun2 & _ & Hremoved2 & _).
  { intros r Hr Hold. by destruct (Hyoung r Hr). }
  exists w1, w2. split; [exact Hrun1|]. split; [exact Hrun2|].
  apply map_eq. intros p.
  destruct (delete_backups_frame _ _ now w1 p _ _ Hclock1 Hrun2)
    as [Heq|[_ [[r [Hr Hp]] [m [Hm Hold]]]]]; [exact Heq|].
  destruct (Hyoung r Hr). exists m. split.
  - unfold last_modified_time. by rewrite Hp, Hm.
  - rewrite retention_window_days, Z.abs_eq in Hold by apply retention_days_pos.
    exact Hold.
Qed.

(** Removing the old archives of a tier does not change whether a backup is
    due for it, when the records of the tier are all regular files: the
    archive that makes a backup unnecessary is younger than the retention
    window and is kept, and no record is a directory, whose timestamp a
    removal inside it would renew. *)
Theorem delete_pass_keeps_backup_status (t : tier) (w : World) (now : Z) :
  frozen_at now w ->
  retention_days t * Datetime.US_PER_DAY <= now <= Datetime.DATETIME_MAX ->
  (forall r, r ∈ records (fs w) (tier_dir t) -> is_regular_file (fs w) r) ->
  exists w' due,
    delete_pass t w = (Ok tt, w')
    /\ fst (needs_backup t w) = Ok due
    /\ fst (needs_backup t w') = Ok due.
Proof.
  intros Hclock Hrange Hfiles.
  destruct (delete_pass_total t w now Hclock Hrange (fun r Hr _ => Hfiles r Hr))
    as (w' & Hrun & Hclock' & Hremoved & Hgone).
  assert (Hwindow : tolerance_adjusted_cadence t
                    <= retention_days t * Datetime.US_PER_DAY).
  { destruct t; vm_compute; discriminate. }
  destruct (needs_backup_run t w now Hclock) as [v [Hneeds _]]; [lia|].
  destruct (needs_backup_run t w' now Hclock') as [v' [Hneeds' _]]; [lia|].
  exists w', (forallb (mtime_before (fs w) (now - tolerance_adjusted_cadence t))
                      (records (fs w) (tier_dir t))).
  split; [exact Hrun|]. split; [by rewrite Hneeds|].
  rewrite Hneeds'. cbn [fst]. f_equal.
  apply eq_true_iff_eq. rewrite !forallb_mtime_before. split.
  - intros Hall r Hr. destruct (Hremoved (path r)) as [Hsame|[_ [m [Hm Hold]]]].
    + assert (Hr' : r ∈ records (fs w') (tier_dir t)).
      { by apply (records_after_removal _ _ _ Hremoved). }
      specialize (Hall r Hr'). unfold older_than, last_modified_time in *.
      by rewrite <- Hsame.
    + exists m. split; [|lia]. unfold last_modified_time. by rewrite Hm.
  - intros Hall r Hr.
    apply (records_after_removal _ _ _ Hremoved) in Hr as [Hr Hsame].
    specialize (Hall r Hr). unfold older_than, last_modified_time in *.
    by rewrite Hsame.
Qed.

Lemma delete_pass_idempotent_witness :
  exists w1 w2,
    delete_pass Daily Scenario.mixed_daily = (Ok tt, w1)
    /\ delete_pass Daily w1 = (Ok tt, w2)
    /\ fs w2 = fs w1.
Proof.
  apply (delete_pass_idempotent Daily Scenario.mixed_daily Scenario.noon).
  - intros n. reflexivity.
  - vm_compute. split; discriminate.
  - intros r Hr _.
    assert (Hrecords :
              records (fs Scenario.mixed_daily) (tier_dir Daily)
              = (fun p => {| path := BACKUPS_DAILY ++ p |})
                  <$> [["2022"; "old.tar.gz"]; ["c.tar.gz"]; ["b.tar.gz"]; ["a.tar.gz"]])
      by (vm_compute; reflexivity).
    rewrite Hrecords in Hr. apply list_elem_of_In in Hr.
    cbn [fmap list_fmap In] in Hr.
    destruct Hr as [<-|[<-|[<-|[<-|[]]]]]; eexists; vm_compute; reflexivity.
Defined.

Lemma delete_pass_keeps_backup_status_witness :
  exists w' due,
    delete_pass Daily Scenario.mixed_daily = (Ok tt, w')
    /\ fst (needs_backup Daily Scenario.mixed_daily) = Ok due
    /\ fst (needs_backup Daily w') = Ok due.
Proof.
  apply (delete_pass_keeps_backup_status Daily Scenario.mixed_daily Scenario.noon).
  - intros n. reflexivity.
  - vm_compute. split; discriminate.
  - intros r Hr.
    assert (Hrecords :
              records (fs Scenario.mixed_daily) (tier_dir Daily)
              = (fun p => {| path := BACKUPS_DAILY ++ p |})
                  <$> [["2022"; "old.tar.gz"]; ["c.tar.gz"]; ["b.tar.gz"]; ["a.tar.gz"]])
      by (vm_compute; reflexivity).
    rewrite Hrecords in Hr. apply list_elem_of_In in Hr.
    cbn [fmap list_fmap In] in Hr.
    destruct Hr as [<-|[<-|[<-|[<-|[]]]]]; eexists; vm_compute; reflexivity.
Defined.

(** ** Creating the backups that are due *)

Lemma create_backup_later (parent_dir : Path) : keeps later (create_backup parent_dir).
Proof.
  unfold create_backup, stop_minecraft_server, start_minecraft_server,
    get_new_backup_filename.
  repeat first
    [ apply keeps_bind; [apply later_trans| |intros ?]
    | apply keeps_ret, later_refl
    | apply observes_later, logging_info_observes
    | apply observes_later, datetime_now_observes
    | apply subprocess_run_later ].
Qed.

Lemma create_new_backups_tier_later (due : bool) (dir : Path) (msg : string) :
  keeps later (if due then (create_backup dir ;; ret tt)%py else logging_info msg []).
Proof.
  destruct due.
  - apply keeps_bind; [apply later_trans|apply create_backup_later|intros _].
    apply keeps_ret, later_refl.
  - apply observes_later, logging_info_observes.
Qed.

(** The world after [m] is an earlier state of the world after [m] and its
    continuation. *)
Lemma bind_later {A B} (m : M A) (k : A -> M B) (w : World) :
  (forall a, keeps later (k a)) -> later (snd (m w)) (snd (bind m k w)).
Proof.
  intros Hk. unfold bind. destruct (m w) as [[a|e] w1]; cbn [snd].
  - apply Hk.
  - apply later_refl.
Qed.

(** A record that is not older than the threshold makes the answer false. *)
Lemma needs_backup_not_due (t : tier) (w : World) (now : Z) :
  frozen_at now w ->
  tolerance_adjusted_cadence t <= now <= Datetime.DATETIME_MAX ->
  (exists r m, r ∈ records (fs w) (tier_dir t)
               /\ last_modified_time (fs w) r = Some m
               /\ now - tolerance_adjusted_cadence t <= m) ->
  exists w', needs_backup t w = (Ok false, w') /\ only_observed w w'.
Proof.
  intros Hclock Hrange (r & m & Hr & Hm & Hrecent).
  destruct (needs_backup_run t w now Hclock Hrange) as [w' [Hrun _]].
  exists w'. split.
  - rewrite Hrun. f_equal. f_equal. apply not_true_is_false. intros Hall.
    rewrite forallb_mtime_before in Hall. destruct (Hall r Hr) as [m' [Hm' Hold]].
    rewrite Hm in Hm'. injection Hm' as <-. lia.
  - pose proof (needs_backup_observes t w) as Hobs. by rewrite Hrun in Hobs.
Qed.

(** When every tier holds an archive younger than its threshold,
    [create_new_backups] creates nothing: it runs no command (the server is
    not stopped), leaves the disk as it is, and logs for each tier that no
    backup is needed. *)
Theorem create_new_backups_nothing_due (w : World) (now : Z) :
  frozen_at now w ->
  tolerance_adjusted_cadence Monthly <= now <= Datetime.DATETIME_MAX ->
  (forall t, exists r m,
        r ∈ records (fs w) (tier_dir t)
        /\ last_modified_time (fs w) r = Some m
        /\ now - tolerance_adjusted_cadence t <= m) ->
  exists w' evs,
    create_new_backups w = (Ok tt, w')
    /\ fs w' = fs w
    /\ trace w' = trace w ++ evs
    /\ writes evs = []
    /\ EvLog INFO "No daily backup needed." [] ∈ evs
    /\ EvLog INFO "No weekly backup needed." [] ∈ evs
    /\ EvLog INFO "No monthly backup needed." [] ∈ evs.
Proof.
  intros Hclock [Hlo Hhi] Hrecent.
  assert (Hle : forall t, tolerance_adjusted_cadence t <= tolerance_adjusted_cadence Monthly).
  { intros []; vm_compute; discriminate. }
  destruct (needs_backup_not_due Daily w now Hclock) as (w1 & Hrun1 & Ho1);
    [pose proof (Hle Daily); lia|apply Hrecent|].
  destruct Ho1 as (Hfs1 & Hc1 & Hs1 & evs1 & Ht1 & Hw1).
  set (w2 := emit (EvLog INFO "No daily backup needed." []) w1).
  assert (Hclock2 : frozen_at now w2) by (intros n; cbn; by rewrite Hc1).
  destruct (needs_backup_not_due Weekly w2 now Hclock2) as (w3 & Hrun3 & Ho3);
    [pose proof (Hle Weekly); lia|cbn [fs w2 emit]; rewrite Hfs1; apply Hrecent|].
  destruct Ho3 as (Hfs3 & Hc3 & Hs3 & evs3 & Ht3 & Hw3).
  set (w4 := emit (EvLog INFO "No weekly backup needed." []) w3).
  assert (Hclock4 : frozen_at now w4) by (intros n; cbn; by rewrite Hc3).
  destruct (needs_backup_not_due Monthly w4 now Hclock4) as (w5 & Hrun5 & Ho5);
    [lia|cbn [fs w4 emit]; rewrite Hfs3; cbn [fs w2 emit]; rewrite Hfs1; apply Hrecent|].
  destruct Ho5 as (Hfs5 & Hc5 & Hs5 & evs5 & Ht5 & Hw5).
  exists (emit (EvLog INFO "No monthly backup needed." []) w5),
         (evs1 ++ [EvLog INFO "No daily backup needed." []]
          ++ evs3 ++ [EvLog INFO "No weekly backup needed." []]
          ++ evs5 ++ [EvLog INFO "No monthly backup needed." []]).
  split; [|split; [|split; [|split; [|split; [|split]]]]].
  - unfold create_new_backups. cbn [needs_backup] in *. unfold bind at 1.
    rewrite Hrun1. unfold bind at 1. unfold logging_info at 1. fold w2.
    unfold bind at 1. rewrite Hrun3. unfold bind at 1. unfold logging_info at 1.
    fold w4. unfold bind at 1. rewrite Hrun5. reflexivity.
  - cbn [fs emit]. rewrite Hfs5. cbn [fs w4 emit]. rewrite Hfs3.
    cbn [fs w2 emit]. exact Hfs1.
  - cbn [trace emit]. rewrite Ht5. cbn [trace w4 emit]. rewrite Ht3.
    cbn [trace w2 emit]. rewrite Ht1. by rewrite <- !app_assoc.
  - rewrite !writes_app, Hw1, Hw3, Hw5. reflexivity.
  - rewrite !elem_of_app, !list_elem_of_singleton. tauto.
  - rewrite !elem_of_app, !list_elem_of_singleton. tauto.
  - rewrite !elem_of_app, !list_elem_of_singleton. tauto.
Qed.

Lemma create_new_backups_nothing_due_witness :
  exists w' evs,
    create_new_backups Scenario.all_recent = (Ok tt, w')
    /\ fs w' = fs Scenario.all_recent
    /\ trace w' = trace Scenario.all_recent ++ evs
    /\ writes evs = []
    /\ EvLog INFO "No daily backup needed." [] ∈ evs
    /\ EvLog INFO "No weekly backup needed." [] ∈ evs
    /\ EvLog INFO "No monthly backup needed." [] ∈ evs.
Proof.
  apply (create_new_backups_nothing_due Scenario.all_recent Scenario.noon).
  - intros n. reflexivity.
  - vm_compute. split; discriminate.
  - intros t.
    exists {| path := tier_dir t
                      ++ [match t with
                          | Daily => "d.tar.gz"
                          | Weekly => "w.tar.gz"
                          | Monthly => "m.tar.gz"
                          end] |},
           (Scenario.noon - Datetime.timedelta 0 0 1 0 0).
    destruct t; (split; [|split]); try (vm_compute; reflexivity);
      try (vm_compute; discriminate).
    + assert (Hrecords : records (fs Scenario.all_recent) (tier_dir Daily)
                         = [ {| path := BACKUPS_DAILY ++ ["d.tar.gz"] |} ])
        by (vm_compute; reflexivity).
      rewrite Hrecords. by apply list_elem_of_singleton.
    + assert (Hrecords : records (fs Scenario.all_recent) (tier_dir Weekly)
                         = [ {| path := BACKUPS_WEEKLY ++ ["w.tar.gz"] |} ])
        by (vm_compute; reflexivity).
      rewrite Hrecords. by apply list_elem_of_singleton.
    + assert (Hrecords : records (fs Scenario.all_recent) (tier_dir Monthly)
                         = [ {| path := BACKUPS_MONTHLY ++ ["m.tar.gz"] |} ])
        by (vm_compute; reflexivity).
      rewrite Hrecords. by apply list_elem_of_singleton.
Defined.

(** When the daily directory cannot be listed (it is missing, it is no
    directory, it is unreadable) a daily backup is taken to be due:
    [create_new_backups] scans, finds nothing, and goes on to stop the
    server. *)
Theorem create_new_backups_unlistable_daily (w : World) :
  Glob.listable (fs w) BACKUPS_DAILY = false ->
  exists evs,
    trace (snd (create_new_backups w))
    = trace w ++ [ EvGlob BACKUPS_DAILY;
                   EvLog INFO "Stopping the Minecraft server." [];
                   EvRun STOP_COMMAND ] ++ evs.
Proof.
  intros Hdir.
  assert (Hdue : needs_daily_backup w = (Ok true, emit (EvGlob BACKUPS_DAILY) w)).
  { unfold needs_daily_backup, bind. rewrite get_backup_files_run.
    unfold records. by rewrite glob_unlistable. }
  set (w1 := emit (EvGlob BACKUPS_DAILY) w) in *.
  set (rest := fun _ : unit =>
                 (weekly <- needs_weekly_backup ;;
                  (if weekly then create_backup BACKUPS_WEEKLY ;; ret tt
                   else logging_info "No weekly backup needed." []) ;;
                  monthly <- needs_monthly_backup ;;
                  (if monthly then create_backup BACKUPS_MONTHLY ;; ret tt
                   else logging_info "No monthly backup needed." []))%py).
  assert (Hrest : forall u, keeps later (rest u)).
  { intros u. unfold rest.
    apply keeps_bind; [apply later_trans| |intros weekly].
    { apply observes_later, (needs_backup_observes Weekly). }
    apply keeps_bind; [apply later_trans|apply create_new_backups_tier_later|intros _].
    apply keeps_bind; [apply later_trans| |intros monthly].
    { apply observes_later, (needs_backup_observes Monthly). }
    apply create_new_backups_tier_later. }
  set (after_stop := fun _ : unit =>
                       (filename <- get_new_backup_filename ;;
                        let backup_path := BACKUPS_DAILY ++ [filename] in
                        logging_info "Creating backup file: %s" [ArgPath backup_path] ;;
                        subprocess_run (tar_command backup_path) ;;
                        start_minecraft_server ;;
                        ret {| path := backup_path |})%py).
  assert (Hafter : forall u, keeps later (after_stop u)).
  { intros u. unfold after_stop, start_minecraft_server, get_new_backup_filename.
    repeat first
      [ apply keeps_bind; [apply later_trans| |intros ?]
      | apply keeps_ret, later_refl
      | apply observes_later, logging_info_observes
      | apply observes_later, datetime_now_observes
      | apply subprocess_run_later ]. }
  assert (Hshape :
            snd (create_new_backups w)
            = snd (bind (bind (bind stop_minecraft_server after_stop)
                              (fun _ => ret tt)) rest w1)).
  { unfold create_new_backups. unfold bind at 1. rewrite Hdue. reflexivity. }
  rewrite Hshape.
  assert (Hstop : exists evs0,
             trace (snd (stop_minecraft_server w1))
             = trace w ++ [ EvGlob BACKUPS_DAILY;
                            EvLog INFO "Stopping the Minecraft server." [];
                            EvRun STOP_COMMAND ] ++ evs0).
  { exists []. unfold stop_minecraft_server, bind, logging_info, subprocess_run.
    cbn [fs trace spawn emit w1].
    destruct (spawn w STOP_COMMAND _ (fs w)) as [[c|] f'];
      [destruct (c =? 0)|]; cbn [snd trace set_fs emit]; unfold w1;
      cbn [trace emit]; by rewrite <- !app_assoc. }
  destruct Hstop as [evs0 Hstop].
  pose proof (bind_later stop_minecraft_server after_stop w1 Hafter) as (_ & _ & evs1 & H1).
  pose proof (bind_later (bind stop_minecraft_server after_stop) (fun _ => ret tt) w1
                (fun _ => keeps_ret later later_refl tt)) as (_ & _ & evs2 & H2).
  pose proof (bind_later (bind (bind stop_minecraft_server after_stop) (fun _ => ret tt))
                rest w1 Hrest) as (_ & _ & evs3 & H3).
  exists (evs0 ++ evs1 ++ evs2 ++ evs3).
  rewrite H3, H2, H1, Hstop. by rewrite <- !app_assoc.
Qed.

Lemma create_new_backups_unlistable_daily_witness :
  exists evs,
    trace (snd (create_new_backups Scenario.unreadable_daily))
    = trace Scenario.unreadable_daily
      ++ [ EvGlob BACKUPS_DAILY;
           EvLog INFO "Stopping the Minecraft server." [];
           EvRun STOP_COMMAND ] ++ evs.
Proof.
  apply (create_new_backups_unlistable_daily Scenario.unreadable_daily).
  vm_compute. reflexivity.
Defined.

